(** * The job-application dashboard pipeline of [main7.py] and [app.py]

    A shallow embedding of the helper functions that turn a fetched sheet
    into the dashboard content (column resolution, success rate, status
    counts, most recent activity, timeline, company distribution), of
    [build_dashboard_content] and of the refresh callback, followed by the
    properties of the specification that they decide.

    Conventions of the embedding.
    - Python [str] values are [string]s of ASCII characters; [str.lower],
      [str.strip], [in] and [str.split] are written out below.
    - A pandas [DataFrame] is a list of column labels and a list of rows of
      cells.  A cell is text, a missing value ([NaN]), a parsed date
      ([Timestamp]) or an unparseable date ([NaT]).  Columns that
      [read_csv] would type as numbers or booleans are not represented.
      Where a statement reads a column by its label, the labels of the
      frame are distinct, as in the data model of the specification:
      pandas gives no series for a repeated label.
    - Python dictionaries are [gmap]s; exceptions are the [Raise] results
      of a small error monad; the in-place update of the frame performed
      by [get_recent_activity] is explicit state passing. *)

From Stdlib Require Import ZArith String Ascii List Floats Uint63 DecimalString.
From Stdlib Require Import Sorting.Sorted Sorting.Permutation.
From stdpp Require Import gmap strings list sorting.

Local Open Scope string_scope.

(** ** Python strings *)

Module Py.

(** [c.lower()] for one ASCII character. *)
Definition lower_ascii (c : ascii) : ascii :=
  let n := nat_of_ascii c in
  if (65 <=? n)%nat && (n <=? 90)%nat then ascii_of_nat (n + 32) else c.

(** [s.lower()] *)
Fixpoint lower (s : string) : string :=
  match s with
  | EmptyString => EmptyString
  | String c s' => String (lower_ascii c) (lower s')
  end.

(** [c.isspace()] on ASCII: tab, line feed, vertical tab, form feed,
    carriage return, the four separators 28..31 and the space. *)
Definition isspace (c : ascii) : bool :=
  let n := nat_of_ascii c in
  ((9 <=? n)%nat && (n <=? 13)%nat) || ((28 <=? n)%nat && (n <=? 32)%nat).

Fixpoint lstrip (s : string) : string :=
  match s with
  | EmptyString => EmptyString
  | String c s' => if isspace c then lstrip s' else s
  end.

(** [rstrip] keeps a character when it is not a space or when something
    is left after it. *)
Fixpoint rstrip (s : string) : string :=
  match s with
  | EmptyString => EmptyString
  | String c s' =>
      match rstrip s' with
      | EmptyString => if isspace c then EmptyString else String c EmptyString
      | r => String c r
      end
  end.

(** [s.strip()] *)
Definition strip (s : string) : string := rstrip (lstrip s).

(** [s.startswith(w)] *)
Fixpoint startswith (w s : string) : bool :=
  match w, s with
  | EmptyString, _ => true
  | String a w', String b s' => if ascii_dec a b then startswith w' s' else false
  | String _ _, EmptyString => false
  end.

(** [w in s] *)
Fixpoint contains (w s : string) : bool :=
  startswith w s ||
  match s with
  | EmptyString => false
  | String _ s' => contains w s'
  end.

(** [s.find(w)], [None] standing for [-1]. *)
Fixpoint find (w s : string) : option nat :=
  if startswith w s then Some 0%nat
  else match s with
       | EmptyString => None
       | String _ s' => S <$> find w s'
       end.

(** [s.split(sep)] for a non-empty separator: the text is cut at the
    non-overlapping occurrences of [sep], found from the left.  The
    result of [split_go] is the first piece and the list of the others;
    [skip] counts the characters of an occurrence still to be passed
    over. *)
Fixpoint split_go (sep : string) (skip : nat) (s : string)
  : string * list string :=
  match s with
  | EmptyString => (EmptyString, [])
  | String c s' =>
      match skip with
      | S k => split_go sep k s'
      | O =>
          if startswith sep s
          then (EmptyString,
                let '(piece, others) := split_go sep (String.length sep - 1) s' in
                piece :: others)
          else let '(piece, others) := split_go sep 0 s' in
               (String c piece, others)
      end
  end.

Definition split (sep s : string) : list string :=
  let '(piece, others) := split_go sep 0 s in piece :: others.

End Py.

(** ** Exceptions *)

Inductive exn : Type :=
  | FileNotFoundError (path : string)
  | IndexError
  | KeyError (key : string)
  | AttributeError
  | URLError (url : string).

Inductive result (A : Type) : Type :=
  | Ok (a : A)
  | Raise (e : exn).
Arguments Ok {A} a.
Arguments Raise {A} e.

#[global] Instance result_ret : MRet result := @Ok.
#[global] Instance result_bind : MBind result :=
  fun A B k r => match r with Ok a => k a | Raise e => Raise e end.

(** [try: body except Exception: handler] *)
Definition try_except {A : Type} (body : result A) (handler : exn -> A) : A :=
  match body with
  | Ok a => a
  | Raise e => handler e
  end.

(** ** Column resolution *)

(** [{col.lower(): col for col in columns}]: later columns overwrite
    earlier ones that have the same key. *)
Definition column_map_of (columns : list string) : gmap string string :=
  foldl (fun m col => <[Py.lower col := col]> m) ∅ columns.

(** The loop of [get_column_if_exists]. *)
Fixpoint first_known (col_names : list string) (column_map : gmap string string)
  : option string :=
  match col_names with
  | [] => None
  | col :: rest =>
      match column_map !! Py.lower col with
      | Some original => Some original
      | None => first_known rest column_map
      end
  end.

(** [df.columns = [col.strip().lower() for col in df.columns]] *)
Definition normalize_columns (headers : list string) : list string :=
  map (fun col => Py.lower (Py.strip col)) headers.


(** ** Numbers: true division, [round] and the percentage label *)

(** [int -> float] *)
Definition float_of_nat (n : nat) : float :=
  PrimFloat.of_uint63 (Uint63.of_Z (Z.of_nat n)).

(** [round(x)] for a finite float: the nearest integer, a tie going to
    the even one.  The value of the float is read exactly from its
    mantissa and exponent. *)
Definition py_round (x : float) : Z :=
  match Prim2SF x with
  | S754_finite negative m e =>
      let magnitude :=
        if (0 <=? e)%Z then (Z.pos m * 2 ^ e)%Z
        else
          let d := (2 ^ (- e))%Z in
          let q := (Z.pos m / d)%Z in
          let r := (Z.pos m mod d)%Z in
          if (2 * r <? d)%Z then q
          else if (d <? 2 * r)%Z then (q + 1)%Z
          else if Z.even q then q else (q + 1)%Z in
      if negative then (- magnitude)%Z else magnitude
  | _ => 0%Z
  end.

(** [str(n)] for an integer. *)
Definition str_of_Z (n : Z) : string := NilZero.string_of_int (Z.to_int n).

(** [round((positive_outcomes/total)*100)] *)
Definition percent_of (positive_outcomes total : nat) : Z :=
  py_round
    (PrimFloat.mul
       (PrimFloat.div (float_of_nat positive_outcomes) (float_of_nat total))
       (float_of_nat 100)).

(** [f"{round((positive_outcomes/total)*100)}%"] *)
Definition percent_label (positive_outcomes total : nat) : string :=
  str_of_Z (percent_of positive_outcomes total) +:+ "%".

(** ** Frames and series *)

Inductive cell : Type :=
  | Str (s : string)
  | NaN
  | Timestamp (t : Z)
  | NaT.

#[global] Instance cell_eq_dec : EqDecision cell.
Proof. solve_decision. Defined.

#[global] Instance cell_countable : Countable cell.
Proof.
  refine (inj_countable'
    (fun c => match c with
              | Str s => inl (inl s)
              | Timestamp t => inl (inr t)
              | NaN => inr true
              | NaT => inr false
              end)
    (fun e => match e with
              | inl (inl s) => Str s
              | inl (inr t) => Timestamp t
              | inr true => NaN
              | inr false => NaT
              end) _).
  intros []; reflexivity.
Defined.

(** [pd.isna(x)] / [pd.notna(x)] *)
Definition isna (c : cell) : bool :=
  match c with
  | NaN | NaT => true
  | _ => false
  end.

Definition is_str (c : cell) : bool :=
  match c with
  | Str _ => true
  | _ => false
  end.

Record DataFrame : Type := {
  columns : list string;
  rows : list (list cell)
}.

(** [len(df)] *)
Definition len (df : DataFrame) : nat := length (rows df).

(** Position of the first column labelled [col]. *)
Fixpoint column_index (cols : list string) (col : string) : option nat :=
  match cols with
  | [] => None
  | c :: rest =>
      if decide (c = col) then Some 0%nat else S <$> column_index rest col
  end.

(** [df[col]]: a row shorter than the header reads as missing, which is
    how [read_csv] pads it. *)
Definition getitem (df : DataFrame) (col : string) : result (list cell) :=
  match column_index (columns df) col with
  | Some i => Ok (map (fun row => nth i row NaN) (rows df))
  | None => Raise (KeyError col)
  end.

(** [row[i] = v] on a row of a frame; a row shorter than the header is
    first padded with missing values. *)
Definition assign (i : nat) (v : cell) (row : list cell) : list cell :=
  <[i := v]> (row ++ replicate (S i - length row) NaN)%list.

(** [df[col] = values]: an existing column is overwritten in place, a new
    label is appended. *)
Definition setitem (df : DataFrame) (col : string) (values : list cell)
  : DataFrame :=
  match column_index (columns df) col with
  | Some i =>
      {| columns := columns df;
         rows := zip_with (fun row v => assign i v row) (rows df) values |}
  | None =>
      {| columns := (columns df ++ [col])%list;
         rows := zip_with (fun row v => assign (length (columns df)) v row)
                   (rows df) values |}
  end.

(** The [.str] accessor is refused ([AttributeError]) on a series that
    does not hold text: pandas types a non-empty column without any text
    as [float64] (all missing) or [datetime64]. *)
Definition holds_text (series : list cell) : bool :=
  match series with
  | [] => true
  | _ => existsb is_str series
  end.

Definition str_accessor (series : list cell) : result (list cell) :=
  if holds_text series then Ok series else Raise AttributeError.

(** [series.str.lower()] *)
Definition str_lower (series : list cell) : result (list cell) :=
  s ← str_accessor series;
  Ok (map (fun c => match c with Str t => Str (Py.lower t) | _ => NaN end) s).

(** A pattern made of literal alternatives, ['a|b|c'], finds a match in
    [text] when one of the alternatives occurs in it; with [case=False]
    letters are compared without regard to case. *)
Definition regex_search (pat : string) (case : bool) (text : string) : bool :=
  existsb
    (fun w => if case then Py.contains w text
              else Py.contains (Py.lower w) (Py.lower text))
    (Py.split "|" pat).

(** [series.str.contains(pat, case=case, na=False)] *)
Definition str_contains (pat : string) (case : bool) (series : list cell)
  : result (list bool) :=
  s ← str_accessor series;
  Ok (map (fun c => match c with Str t => regex_search pat case t | _ => false end) s).

(** [mask.sum()] and [len(df[mask])] *)
Definition count_true (mask : list bool) : nat := length (filter (fun b => b = true) mask).

(** [series.dropna()] *)
Definition dropna (series : list cell) : list cell :=
  filter (fun c => isna c = false) series.

(** [series.unique()]: the distinct values in order of first appearance. *)
Fixpoint unique (series : list cell) : list cell :=
  match series with
  | [] => []
  | c :: rest => c :: filter (fun d => d <> c) (unique rest)
  end.

(** Number of cells equal to [c]. *)
Definition occurrences (c : cell) (series : list cell) : nat :=
  length (filter (fun d => d = c) series).

(** Stable insertion by descending count: an entry goes in front of the
    first entry whose count is not larger than its own. *)
Fixpoint insert_by_count (x : cell * nat) (l : list (cell * nat))
  : list (cell * nat) :=
  match l with
  | [] => [x]
  | y :: l' =>
      if (snd x <? snd y)%nat then y :: insert_by_count x l' else x :: y :: l'
  end.

Definition sort_by_count (l : list (cell * nat)) : list (cell * nat) :=
  foldr insert_by_count [] l.

(** [series.value_counts()]: the distinct non-missing values with their
    frequencies, most frequent first; values of equal frequency stay in
    order of first appearance (the sort is stable). *)
Definition value_counts (series : list cell) : list (cell * nat) :=
  let present := dropna series in
  sort_by_count (map (fun c => (c, occurrences c present)) (unique present)).

(** [series.max()] of a datetime series: missing values are skipped,
    [None] stands for [NaT]. *)
Fixpoint series_max (series : list cell) : option Z :=
  match series with
  | [] => None
  | Timestamp t :: rest =>
      match series_max rest with
      | Some u => Some (Z.max t u)
      | None => Some t
      end
  | _ :: rest => series_max rest
  end.

(** [df.dropna(subset=[col])] *)
Definition dropna_subset (df : DataFrame) (col : string) : result DataFrame :=
  match column_index (columns df) col with
  | Some i =>
      Ok {| columns := columns df;
            rows := filter (fun row => isna (nth i row NaN) = false) (rows df) |}
  | None => Raise (KeyError col)
  end.

(** [str(e)] *)
Definition exn_message (e : exn) : string :=
  match e with
  | FileNotFoundError path => "No such file or directory: " +:+ path
  | IndexError => "list index out of range"
  | KeyError key => "'" +:+ key +:+ "'"
  | AttributeError => "Can only use .str accessor with string values!"
  | URLError url => "HTTP Error: " +:+ url
  end.

(** ** The library functions the helpers call

    The date parser, the date formatter and the sorting routine belong to
    pandas and the standard library, not to this repository.  They are
    taken as an interface: [infer_datetime series i] is the instant that
    [pd.to_datetime(series, errors='coerce')] reads in the text at position
    [i], if any (the format may be inferred from the whole series);
    [strftime] renders an instant with ['%b %d, %Y']; [argsort keys] is
    the order in which [sort_values] visits rows whose dates are [keys]: a
    reordering of the positions that makes the dates ascend.  Nothing is
    assumed about the order of equal dates. *)
Class Pandas : Type := {
  infer_datetime : list cell -> nat -> option Z;
  strftime : Z -> string;
  argsort : list Z -> list nat;
  argsort_perm : forall keys, Permutation (argsort keys) (seq 0 (length keys));
  argsort_sorted : forall keys,
    Sorted Z.le (omap (fun i => keys !! i) (argsort keys))
}.

(** ** Figures and view model *)

Record point : Type := {
  Date : cell;
  Status : cell;
  Count : nat
}.

Inductive figure : Type :=
  | EmptyFigure (message : string)
  | PieFigure (slices : list (cell * nat))
  | LineFigure (timeline_data : list point)
  | BarFigure (bars : list (cell * nat)).

(** [create_empty_figure(message)] *)
Definition create_empty_figure (message : string) : figure := EmptyFigure message.

(** What [html.Div([...])] of [build_dashboard_content] displays. *)
Record Content : Type := {
  last_refreshed : string;
  total_applications : nat;
  interviews : nat;
  approved : nat;
  success_rate : string;
  status_pie : figure;
  timeline_chart : figure;
  company_chart : figure;
  status_options : list cell;
  table_columns : list (string * bool);
  table_data : list (list (string * cell));
  highlight_column : option string
}.

Inductive display : Type :=
  | Dashboard (content : Content)
  | ErrorDiv (username : string) (e : exn).

(** The files and the network as one refresh finds them. *)
Record World : Type := {
  open_read : string -> result string;
  read_csv : string -> result DataFrame;
  read_column_info : string -> result (list (string * string));
  now : string
}.

Definition STATUS_NAMES : list string :=
  ["status"; "application status"; "job status"].
Definition DATE_NAMES : list string :=
  ["date"; "application date"; "applied on"; "apply date"].
Definition COMPANY_NAMES : list string :=
  ["company"; "organization"; "employer"].

(** ** Dashboard helper functions *)

Definition get_column_if_exists (df : DataFrame) (col_names : list string)
    (column_map : option (gmap string string)) : option string :=
  let column_map :=
    match column_map with
    | Some m => m
    | None => column_map_of (columns df)
    end in
  first_known col_names column_map.

(** [if not col: ...]: [None] and the empty string are false. *)
Definition truthy (col : option string) : option string :=
  match col with
  | Some EmptyString => None
  | other => other
  end.

Definition calculate_success_rate (df : DataFrame)
    (column_map : gmap string string) : result string :=
  match truthy (get_column_if_exists df STATUS_NAMES (Some column_map)) with
  | None => Ok "N/A"
  | Some status_col =>
      let total := len df in
      if decide (total = 0%nat) then Ok "0%"
      else
        series ← getitem df status_col;
        lowered ← str_lower series;
        mask ← str_contains "approved|shortlisted|interview|offer" true lowered;
        let positive_outcomes := count_true mask in
        Ok (percent_label positive_outcomes total)
  end.

Definition count_status (df : DataFrame) (status_pattern : string)
    (column_map : gmap string string) : result nat :=
  match truthy (get_column_if_exists df STATUS_NAMES (Some column_map)) with
  | None => Ok 0%nat
  | Some status_col =>
      series ← getitem df status_col;
      lowered ← str_lower series;
      mask ← str_contains status_pattern false lowered;
      Ok (count_true mask)
  end.

Definition create_status_pie (df : DataFrame)
    (column_map : gmap string string) : result figure :=
  match truthy (get_column_if_exists df STATUS_NAMES (Some column_map)) with
  | None =>
      Ok (create_empty_figure
            "Status distribution not available - no status column found")
  | Some status_col =>
      series ← getitem df status_col;
      let status_counts := value_counts series in
      if decide (length status_counts = 0%nat)
      then Ok (create_empty_figure "No status data available")
      else Ok (PieFigure status_counts)
  end.

Definition create_company_distribution (df : DataFrame)
    (column_map : gmap string string) : result figure :=
  match truthy (get_column_if_exists df COMPANY_NAMES (Some column_map)) with
  | None =>
      Ok (create_empty_figure
            "Company distribution not available - no company column found")
  | Some company_col =>
      series ← getitem df company_col;
      if forallb isna series || bool_decide (length (dropna series) = 0%nat)
      then Ok (create_empty_figure
                 "Company distribution not available - no company data")
      else
        let company_counts := take 10 (value_counts series) in
        Ok (BarFigure company_counts)
  end.

(** The loop of [create_timeline_chart] over the zipped date and status
    columns, threading the dictionary [status_counts]. *)
Fixpoint timeline_loop (pairs : list (cell * cell))
    (status_counts : gmap cell nat) : list point :=
  match pairs with
  | [] => []
  | (date, status) :: rest =>
      if isna status then timeline_loop rest status_counts
      else
        let n := S (default 0%nat (status_counts !! status)) in
        {| Date := date; Status := status; Count := n |}
        :: timeline_loop rest (<[status := n]> status_counts)
  end.

Section Helpers.
Context {pandas : Pandas}.

(** [pd.to_datetime(series, errors='coerce')]: text is parsed or becomes
    [NaT], a missing value becomes [NaT], a date stays as it is. *)
Definition to_datetime (series : list cell) : list cell :=
  imap (fun i c =>
          match c with
          | Timestamp t => Timestamp t
          | Str _ =>
              match infer_datetime series i with
              | Some t => Timestamp t
              | None => NaT
              end
          | _ => NaT
          end) series.

(** The instant of a cell of a datetime column. *)
Definition instant (c : cell) : Z :=
  match c with
  | Timestamp t => t
  | _ => 0%Z
  end.

(** [df.sort_values(col)] on a frame whose column [col] holds dates only. *)
Definition sort_values (df : DataFrame) (col : string) : result DataFrame :=
  keys ← getitem df col;
  Ok {| columns := columns df;
        rows := omap (fun i => rows df !! i) (argsort (map instant keys)) |}.

(** The frame is threaded through: the assignment to [df[date_col]]
    changes the caller's frame. *)
Definition get_recent_activity (df : DataFrame)
    (column_map : gmap string string) : string * DataFrame :=
  match truthy (get_column_if_exists df DATE_NAMES (Some column_map)) with
  | None => ("No date information", df)
  | Some date_col =>
      match getitem df date_col with
      | Raise _ => ("Date format error", df)
      | Ok series =>
          let df := setitem df date_col (to_datetime series) in
          try_except
            (parsed ← getitem df date_col;
             match series_max parsed with
             | None => Ok ("Date format error", df)
             | Some latest_date => Ok (strftime latest_date, df)
             end)
            (fun _ => ("Date format error", df))
      end
  end.

Definition join_and (missing : list string) : string :=
  match missing with
  | [] => ""
  | m :: rest => foldl (fun acc x => acc +:+ " and " +:+ x) m rest
  end.

(** The dates are parsed on [df.copy()]: the frame of the caller stays as
    it is and is not handed back. *)
Definition create_timeline_chart (df : DataFrame)
    (column_map : gmap string string) : figure :=
  let date_col := truthy (get_column_if_exists df DATE_NAMES (Some column_map)) in
  let status_col := truthy (get_column_if_exists df STATUS_NAMES (Some column_map)) in
  match date_col, status_col with
  | Some date_col, Some status_col =>
      try_except
        (let df_timeline := df in
         series ← getitem df_timeline date_col;
         let df_timeline := setitem df_timeline date_col (to_datetime series) in
         df_timeline ← dropna_subset df_timeline date_col;
         if decide (len df_timeline = 0%nat)
         then Ok (create_empty_figure
                    "Timeline not available - no valid dates found")
         else
           df_timeline ← sort_values df_timeline date_col;
           dates ← getitem df_timeline date_col;
           statuses ← getitem df_timeline status_col;
           let timeline_data := timeline_loop (zip dates statuses) ∅ in
           match timeline_data with
           | [] => Ok (create_empty_figure
                         "Timeline not available - no valid status data")
           | _ => Ok (LineFigure timeline_data)
           end)
        (fun e => create_empty_figure ("Timeline error - " +:+ exn_message e))
  | _, _ =>
      let missing :=
        (match date_col with Some _ => [] | None => ["date"] end ++
         match status_col with Some _ => [] | None => ["status"] end)%list in
      create_empty_figure
        ("Timeline not available - missing " +:+ join_and missing +:+ " data")
  end.

(** ** Building the dashboard content *)

(** [l[i]] *)
Definition index {A : Type} (l : list A) (i : nat) : result A :=
  match l !! i with
  | Some x => Ok x
  | None => Raise IndexError
  end.

(** [sheet_url.split("/d/")[1].split("/")[0]] *)
Definition sheet_id_of (sheet_url : string) : result string :=
  after_marker ← index (Py.split "/d/" sheet_url) 1;
  index (Py.split "/" after_marker) 0.

(** The export endpoint of a sheet, shared by [create_user_dashboard] and
    [build_dashboard_content]. *)
Definition csv_url_of (sheet_url : string) : result string :=
  sheet_id ← sheet_id_of sheet_url;
  Ok ("https://docs.google.com/spreadsheets/d/" +:+ sheet_id
      +:+ "/export?format=csv").

Definition KEYWORDS : list string := ["link"; "job page"; "resume"].

(** [f"[link]({x})" if pd.notna(x) and str(x).strip() != "" else ""].  The
    frame holds no date at this point; the text chosen for one is
    immaterial. *)
Definition link_cell (x : cell) : cell :=
  match x with
  | Str t => if decide (Py.strip t = "") then Str "" else Str ("[link](" +:+ t +:+ ")")
  | Timestamp t => Str ("[link](" +:+ str_of_Z t +:+ ")")
  | NaN | NaT => Str ""
  end.

(** [for col in df.columns: if any(keyword in col.lower() ...): df[col] = df[col].apply(...)] *)
Fixpoint reformat_links (cols : list string) (df : DataFrame) : result DataFrame :=
  match cols with
  | [] => Ok df
  | col :: rest =>
      if existsb (fun keyword => Py.contains keyword (Py.lower col)) KEYWORDS
      then series ← getitem df col;
           reformat_links rest (setitem df col (map link_cell series))
      else reformat_links rest df
  end.

(** [dict(zip(column_df['lowercase'], column_df['original']))] *)
Definition column_map_of_pairs (pairs : list (string * string))
  : gmap string string :=
  foldl (fun m kv => <[fst kv := snd kv]> m) ∅ pairs.

(** [df.to_dict('records')] *)
Definition to_dict_records (df : DataFrame) : list (list (string * cell)) :=
  map (fun row => imap (fun i col => (col, nth i row NaN)) (columns df)) (rows df).

(** The statements of [build_dashboard_content] from the reformatting of
    the link columns to the end, for a frame with normalized headers and a
    column map. *)
Definition dashboard_of (w : World) (df : DataFrame)
    (column_map : gmap string string) : result display :=
  df ← reformat_links (columns df) df;
  let total_applications := len df in
  success_rate ← calculate_success_rate df column_map;
  let '(recent_activity, df) := get_recent_activity df column_map in
  approved_count ← count_status df "approved|offer|accepted" column_map;
  interview_count ← count_status df "interview" column_map;
  rejected_count ← count_status df "rejected|declined" column_map;
  status_pie ← create_status_pie df column_map;
  let timeline_chart := create_timeline_chart df column_map in
  company_chart ← create_company_distribution df column_map;
  let status_col :=
    truthy (get_column_if_exists df STATUS_NAMES (Some column_map)) in
  status_options ←
    match status_col with
    | Some status_col => series ← getitem df status_col; Ok (unique (dropna series))
    | None => Ok []
    end;
  Ok (Dashboard
        {| last_refreshed := now w;
           total_applications := total_applications;
           interviews := interview_count;
           approved := approved_count;
           success_rate := success_rate;
           status_pie := status_pie;
           timeline_chart := timeline_chart;
           company_chart := company_chart;
           status_options := status_options;
           table_columns :=
             map (fun col => (col, Py.contains "link" (Py.lower col))) (columns df);
           table_data := to_dict_records df;
           highlight_column := status_col |}).

(** The inner [try] of [build_dashboard_content]: the column map saved
    when the dashboard was created or, when it cannot be read, the map of
    the headers just fetched. *)
Definition load_column_map (w : World) (username : string) (df : DataFrame)
  : gmap string string :=
  try_except
    (pairs ← read_column_info w ("dashboard_columns_" +:+ username +:+ ".csv");
     Ok (column_map_of_pairs pairs))
    (fun _ => column_map_of (columns df)).

(** [build_dashboard_content] of [main7.py]. *)
Definition build_dashboard_content (w : World) (username : string) : display :=
  try_except
    (text ← open_read w ("dashboard_sheeturl_" +:+ username +:+ ".txt");
     let sheet_url := Py.strip text in
     csv_url ← csv_url_of sheet_url;
     df ← read_csv w csv_url;
     let df := {| columns := normalize_columns (columns df); rows := rows df |} in
     let column_map := load_column_map w username df in
     dashboard_of w df column_map)
    (fun e => ErrorDiv username e).

(** The children of ["dashboard-content"] when the page is laid out. *)
Definition dashboard_layout (w : World) (username : string) : display :=
  build_dashboard_content w username.

(** The refresh callback, fired by the button and by the interval. *)
Definition update_dashboard_content (n_clicks n_intervals : option nat)
    (username : string) (w : World) : display :=
  build_dashboard_content w username.

End Helpers.

(** ** The variant of [app.py] *)

Module App.

(** [build_dashboard_content] of [app.py]: the reference is the argument
    itself and the column map is always that of the fetched headers. *)
Definition build_dashboard_content {pandas : Pandas} (w : World)
    (sheet_url : string) : display :=
  try_except
    (csv_url ← csv_url_of sheet_url;
     df ← read_csv w csv_url;
     let df := {| columns := normalize_columns (columns df); rows := rows df |} in
     let column_map := column_map_of (columns df) in
     dashboard_of w df column_map)
    (fun e => ErrorDiv sheet_url e).

End App.

(** ** The page and its refreshes *)

(** What the callbacks of a dashboard page read and write: the stored
    user name and the children of ["dashboard-content"]. *)
Record Page : Type := {
  stored_username : string;
  dashboard_content : display
}.

(** The reference that a build reads and the endpoint it fetches: the
    first three statements of [build_dashboard_content]. *)
Definition requested_url (w : World) (username : string) : result string :=
  text ← open_read w ("dashboard_sheeturl_" +:+ username +:+ ".txt");
  csv_url_of (Py.strip text).

(** The content that the specification asks for after a refresh: a failed
    refresh keeps the dashboard already shown. *)
Definition retained (previous latest : display) : display :=
  match latest, previous with
  | ErrorDiv _ _, Dashboard _ => previous
  | _, _ => latest
  end.

Section Refreshing.
Context {pandas : Pandas}.

(** Routing to [/dashboard/<username>] lays the page out. *)
Definition open_page (w : World) (username : string) : Page :=
  {| stored_username := username;
     dashboard_content := dashboard_layout w username |}.

(** One firing of the refresh callback, by the button or by the interval:
    the value returned replaces the children of ["dashboard-content"]. *)
Definition refresh (page : Page) (n_clicks n_intervals : option nat) (w : World)
  : Page :=
  {| stored_username := stored_username page;
     dashboard_content :=
       update_dashboard_content n_clicks n_intervals (stored_username page) w |}.







End Refreshing.

(** ** Creating a dashboard (home page) *)

Inductive creation : Type :=
  | PleaseEnterBoth
  | DashboardCreated (column_info : list (string * string))
      (saved_sheet_url : string) (saved_data : DataFrame) (href : string)
  | ErrorCreating (e : exn).

(** [create_user_dashboard] of [main7.py]; [column_info] lists the pairs
    (lowercase, original) written to the side file, both taken from the
    normalized headers. *)
Definition create_user_dashboard (w : World) (n_clicks : nat)
    (username sheet_url : option string) : creation :=
  match truthy username, truthy sheet_url with
  | Some username, Some sheet_url =>
      try_except
        (csv_url ← csv_url_of sheet_url;
         df ← read_csv w csv_url;
         let df := {| columns := normalize_columns (columns df); rows := rows df |} in
         let column_info := map (fun col => (col, col)) (columns df) in
         df ← reformat_links (columns df) df;
         Ok (DashboardCreated column_info sheet_url df ("/dashboard/" +:+ username)))
        ErrorCreating
  | _, _ => PleaseEnterBoth
  end.

(** ** Routing and the home page of [app.py] *)

(** [s[n:]] *)
Fixpoint slice_from (n : nat) (s : string) : string :=
  match n, s with
  | O, _ => s
  | S _, EmptyString => EmptyString
  | S n', String _ rest => slice_from n' rest
  end.

(** [re.match(r'^/dashboard/([^/]+)$', pathname)] and [m.group(1)]: the
    text after the prefix, when it is not empty and holds no slash (the
    class [[^/]] takes any other character, a newline included, so the
    group runs to the end of the path). *)
Definition match_dashboard (pathname : string) : option string :=
  if Py.startswith "/dashboard/" pathname then
    let username := slice_from 11 pathname in
    if bool_decide (username <> "") && negb (Py.contains "/" username)
    then Some username
    else None
  else None.

(** What [display_page] hands to ["page-content"]. *)
Inductive routed : Type :=
  | HomeLayout
  | DashboardLayout (laid_out : Page)
  | PageNotFound.

Section Routing.
Context {pandas : Pandas}.

(** [display_page] of [main7.py]. *)
Definition display_page (w : World) (pathname : option string) : routed :=
  match truthy pathname with
  | None => HomeLayout
  | Some pathname =>
      if decide (pathname = "/") then HomeLayout
      else
        match match_dashboard pathname with
        | Some username => DashboardLayout (open_page w username)
        | None => PageNotFound
        end
  end.

End Routing.

Module AppPages.

(** [dashboard_layout] of [app.py]: the stored value is the reference. *)
Definition dashboard_layout {pandas : Pandas} (w : World) (sheet_url : string)
  : Page :=
  {| stored_username := sheet_url;
     dashboard_content := App.build_dashboard_content w sheet_url |}.

(** [display_page] of [app.py]: every path but ["/"] is a dashboard, of
    the reference that follows the first character. *)
Definition display_page {pandas : Pandas} (w : World) (pathname : option string)
  : routed :=
  match truthy pathname with
  | None => HomeLayout
  | Some pathname =>
      if decide (pathname = "/") then HomeLayout
      else
        let sheet_url := slice_from 1 pathname in
        DashboardLayout (dashboard_layout w sheet_url)
  end.

(** [create_user_dashboard] of [app.py]: as in [main7.py], but the link
    leads to the reference itself. *)
Definition create_user_dashboard (w : World) (n_clicks : nat)
    (username sheet_url : option string) : creation :=
  match truthy username, truthy sheet_url with
  | Some username, Some sheet_url =>
      try_except
        (csv_url ← csv_url_of sheet_url;
         df ← read_csv w csv_url;
         let df := {| columns := normalize_columns (columns df); rows := rows df |} in
         let column_info := map (fun col => (col, col)) (columns df) in
         df ← reformat_links (columns df) df;
         Ok (DashboardCreated column_info sheet_url df ("/" +:+ sheet_url)))
        ErrorCreating
  | _, _ => PleaseEnterBoth
  end.

End AppPages.

(** ** Roles *)

Inductive role : Type := StatusRole | DateRole | CompanyRole.

Definition names_of (r : role) : list string :=
  match r with
  | StatusRole => STATUS_NAMES
  | DateRole => DATE_NAMES
  | CompanyRole => COMPANY_NAMES
  end.

(** The header bound to a role on a freshly fetched frame, whose column
    map is derived from its own normalized headers. *)
Definition resolve (r : role) (df : DataFrame) : option string :=
  get_column_if_exists df (names_of r) (Some (column_map_of (columns df))).

(** The binding rule in the words of section 4.1 of the specification:
    the first header, in the order of the sheet, whose normalized text is
    one of the synonyms. *)
Definition first_matching_header (r : role) (headers : list string)
  : option string :=
  head (filter (fun c => c ∈ names_of r) (normalize_columns headers)).

(** ** Status words and exact rounding *)

(** One of [words] occurs in the lower-cased text of the cell; a cell
    without text matches nothing. *)
Definition mentions (words : list string) (c : cell) : bool :=
  match c with
  | Str text => existsb (fun w => Py.contains w (Py.lower text)) words
  | _ => false
  end.

Definition SUCCESS_WORDS : list string :=
  ["approved"; "shortlisted"; "interview"; "offer"].

(** Number of cells that mention one of [words]. *)
Definition matching (words : list string) (series : list cell) : nat :=
  length (filter (fun c => mentions words c = true) series).

(** The integer nearest to the exact quotient [n / d], a tie going to the
    even one: [round] applied to the quotient itself. *)
Definition round_ratio (n d : Z) : Z :=
  let q := (n / d)%Z in
  let r := (n mod d)%Z in
  if (2 * r <? d)%Z then q
  else if (d <? 2 * r)%Z then (q + 1)%Z
  else if Z.even q then q else (q + 1)%Z.

(** The label in the words of the specification, [round(100 × matches /
    total)] on the exact quotient. *)
Definition exact_percent_label (matches total : nat) : string :=
  str_of_Z (round_ratio (100 * Z.of_nat matches) (Z.of_nat total)) +:+ "%".

(** The frame that [read_csv] and the normalization of its headers give
    for a sheet with these headers and rows. *)
Definition fetched (headers : list string) (cells : list (list cell)) : DataFrame :=
  {| columns := normalize_columns headers; rows := cells |}.

(** ** A reference implementation of the library interface

    Dates written year-month-day, read cell by cell; instants are the
    numbers [10000 * year + 100 * month + day]; the sort is a merge sort
    of the positions.  It serves to run the pipeline on sample sheets. *)

Definition digit (c : ascii) : option Z :=
  let n := nat_of_ascii c in
  if (48 <=? n)%nat && (n <=? 57)%nat then Some (Z.of_nat (n - 48)) else None.

Fixpoint number_go (acc : Z) (s : string) : option Z :=
  match s with
  | EmptyString => Some acc
  | String c s' => d ← digit c; number_go (10 * acc + d)%Z s'
  end.

Definition number (s : string) : option Z :=
  match s with
  | EmptyString => None
  | _ => number_go 0 s
  end.

Definition iso_date (text : string) : option Z :=
  match Py.split "-" (Py.strip text) with
  | [y; m; d] =>
      y ← number y; m ← number m; d ← number d;
      if bool_decide (1 <= m <= 12 /\ 1 <= d <= 31)%Z
      then Some (10000 * y + 100 * m + d)%Z
      else None
  | _ => None
  end.

Definition reference_infer (series : list cell) (i : nat) : option Z :=
  match series !! i with
  | Some (Str text) => iso_date text
  | _ => None
  end.

Definition month_abbr (m : Z) : string :=
  nth (Z.to_nat (m - 1))
    ["Jan"; "Feb"; "Mar"; "Apr"; "May"; "Jun";
     "Jul"; "Aug"; "Sep"; "Oct"; "Nov"; "Dec"] "".

Definition two_digits (d : Z) : string :=
  if (d <? 10)%Z then "0" +:+ str_of_Z d else str_of_Z d.

Definition reference_strftime (t : Z) : string :=
  month_abbr ((t / 100) mod 100) +:+ " " +:+ two_digits (t mod 100)
  +:+ ", " +:+ str_of_Z (t / 10000).

Definition key_at (keys : list Z) (i : nat) : Z := default 0%Z (keys !! i).

Definition key_le (keys : list Z) (i j : nat) : Prop :=
  (key_at keys i <= key_at keys j)%Z.

#[global] Instance key_le_dec keys : RelDecision (key_le keys).
Proof. intros i j. unfold key_le. apply _. Defined.

Definition reference_argsort (keys : list Z) : list nat :=
  merge_sort (key_le keys) (seq 0 (length keys)).

(** A world in which the column file read for any user holds [pairs]. *)
Definition with_column_info (w : World) (pairs : list (string * string)) : World :=
  {| open_read := open_read w;
     read_csv := read_csv w;
     read_column_info := fun _ => Ok pairs;
     now := now w |}.

Definition example_reference : string :=
  "https://docs.google.com/spreadsheets/d/abc123/edit#gid=0".

Definition example_sheet : DataFrame :=
  {| columns := ["Company"; "Status"; "Date"];
     rows := [[Str "Acme"; Str "Approved"; Str "2024-01-01"];
              [Str "Beta"; Str "Applied"; Str "next week"]] |}.

(** A world with one user, ["ada"], whose saved reference is [url_text],
    whose sheet is fetched as [sheet] and who has no saved column file. *)
Definition sample_world (url_text : string) (sheet : result DataFrame) : World :=
  {| open_read := fun path =>
       if decide (path = "dashboard_sheeturl_ada.txt") then Ok url_text
       else Raise (FileNotFoundError path);
     read_csv := fun _ => sheet;
     read_column_info := fun path => Raise (FileNotFoundError path);
     now := "Jan 06, 2024, 09:00:00 AM" |}.

(** Two worlds for the user ["ada"]: the sheet is served, or the fetch
    fails. *)
Definition sheet_served : World := sample_world example_reference (Ok example_sheet).
Definition sheet_unreachable : World :=
  sample_world example_reference (Raise (URLError "export?format=csv")).

(** A sheet whose rows are out of order, with one date that does not
    parse and one application without status. *)
Definition timeline_headers : list string := ["Company"; "Status"; "Date"].
Definition timeline_rows : list (list cell) :=
  [[Str "Acme"; Str "Applied"; Str "2024-01-05"];
   [Str "Beta"; Str "Applied"; Str "2024-01-01"];
   [Str "Gamma"; Str "Interview"; Str "next week"];
   [Str "Delta"; NaN; Str "2024-01-03"];
   [Str "Epsilon"; Str "Applied"; Str "2024-01-09"]].

(** ** Auxiliary notions used in the statements *)

(** [.str.lower()] on one cell. *)
Definition lower_cell (c : cell) : cell :=
  match c with
  | Str t => Str (Py.lower t)
  | _ => NaN
  end.

(** Descending by count. *)
Definition by_count (a b : cell * nat) : Prop := snd b <= snd a.

(** The cells that a row holds in columns [i] and [j]. *)
Definition view (i j : nat) (row : list cell) : cell * cell :=
  (nth i row NaN, nth j row NaN).

(** The date and the status of a point. *)
Definition row_of (p : point) : cell * cell := (Date p, Status p).

(** A sheet of 40 applications of which 23 reached an interview. *)
Definition forty_rows : list (list cell) :=
  (replicate 23 [Str "Interview"] ++ replicate 17 [Str "Applied"])%list.

(** The example of section 8 of the specification. *)
Definition example_headers : list string := ["Company"; "Status"; "Date"].
Definition example_rows : list (list cell) :=
  [[Str "Acme"; Str "Approved"; Str "2024-01-01"];
   [Str "Beta"; Str "Applied"; Str "2024-01-05"]].

(** ** Further notions used in the statements *)

(** The test of the loop that rewrites the link columns. *)
Definition link_like (col : string) : bool :=
  existsb (fun keyword => Py.contains keyword (Py.lower col)) KEYWORDS.

(** Two displays show the same thing: the same content, or the same
    error (the label of the error message apart). *)
Definition same_view (a b : display) : Prop :=
  match a, b with
  | Dashboard x, Dashboard y => x = y
  | ErrorDiv _ e, ErrorDiv _ e' => e = e'
  | _, _ => False
  end.

(** A sheet whose status column holds no text, and one with a "Job Link"
    and a "Resume" column. *)
Definition blank_status_sheet : DataFrame :=
  {| columns := ["Company"; "Status"];
     rows := [[Str "Acme"; NaN]; [Str "Beta"; NaN]] |}.

Definition links_sheet : DataFrame :=
  {| columns := ["Company"; "Job Link"; "Resume"];
     rows := [[Str "Acme"; Str "https://a.example/1"; Str "cv.pdf"];
              [Str "Beta"; NaN; Str "  "]] |}.

(** ** The reference library satisfies the interface *)

Lemma reference_argsort_perm keys :
  Permutation (reference_argsort keys) (seq 0 (length keys)).
Proof. apply merge_sort_Permutation. Qed.

Lemma omap_lookup_in_range (keys : list Z) (l : list nat) :
  Forall (fun i => (i < length keys)%nat) l ->
  omap (fun i => keys !! i) l = key_at keys <$> l.
Proof.
  induction 1 as [|i l Hi _ IH]; [done|]. csimpl.
  destruct (lookup_lt_is_Some_2 keys i Hi) as [k Hk].
  unfold key_at at 1. rewrite Hk. csimpl. by rewrite IH.
Qed.

Lemma reference_argsort_sorted keys :
  Sorted Z.le (omap (fun i => keys !! i) (reference_argsort keys)).
Proof.
  rewrite omap_lookup_in_range.
  - apply (Sorted_fmap (key_at keys) (key_le keys)); [done|].
    apply Sorted_merge_sort. intros i j. unfold key_le. lia.
  - apply Forall_forall. intros i Hi.
    rewrite (reference_argsort_perm keys) in Hi.
    apply elem_of_seq in Hi. lia.
Qed.

Definition reference_pandas : Pandas :=
  {| infer_datetime := reference_infer;
     strftime := reference_strftime;
     argsort := reference_argsort;
     argsort_perm := reference_argsort_perm;
     argsort_sorted := reference_argsort_sorted |}.

(** * Properties *)

(** ** Strings *)

Lemma lower_ascii_idem c : Py.lower_ascii (Py.lower_ascii c) = Py.lower_ascii c.
Proof. destruct c as [[] [] [] [] [] [] [] []]; reflexivity. Qed.

Lemma lower_idem s : Py.lower (Py.lower s) = Py.lower s.
Proof.
  induction s as [|c s IH]; simpl; [reflexivity|].
  by rewrite lower_ascii_idem, IH.
Qed.

Lemma normalize_columns_lower headers c :
  c ∈ normalize_columns headers -> Py.lower c = c.
Proof.
  unfold normalize_columns. intros (h & -> & _)%list_elem_of_fmap.
  apply lower_idem.
Qed.

(** ** Column maps *)

Lemma column_map_of_acc_lookup cols (m : gmap string string) k v :
  foldl (fun m col => <[Py.lower col := col]> m) m cols !! k = Some v ->
  (v ∈ cols /\ Py.lower v = k) \/ m !! k = Some v.
Proof.
  revert m. induction cols as [|c cols IH]; simpl; intros m H; [by right|].
  apply IH in H as [[Hin Hk]|H].
  - left. split; [by right|done].
  - destruct (decide (Py.lower c = k)) as [<-|Hne].
    + rewrite lookup_insert_eq in H. injection H as <-. left. split; [by left|done].
    + rewrite lookup_insert_ne in H by done. by right.
Qed.

Lemma column_map_of_acc_is_Some cols (m : gmap string string) k :
  (exists c, c ∈ cols /\ Py.lower c = k) \/ is_Some (m !! k) ->
  is_Some (foldl (fun m col => <[Py.lower col := col]> m) m cols !! k).
Proof.
  revert m. induction cols as [|c cols IH]; simpl; intros m H.
  - destruct H as [(c & Hc & _)|H]; [by apply elem_of_nil in Hc|done].
  - apply IH. destruct H as [(c' & Hc' & Hk)|H].
    + apply elem_of_cons in Hc' as [->|Hc'].
      * right. rewrite Hk, lookup_insert_eq. eauto.
      * left. eauto.
    + right. destruct (decide (Py.lower c = k)) as [<-|Hne].
      * rewrite lookup_insert_eq. eauto.
      * by rewrite lookup_insert_ne.
Qed.

(** On normalized headers the derived map sends each header to itself. *)
Lemma column_map_of_normalized headers k v :
  column_map_of (normalize_columns headers) !! k = Some v <->
  v = k /\ k ∈ normalize_columns headers.
Proof.
  unfold column_map_of. split.
  - intros H. apply column_map_of_acc_lookup in H as [[Hin Hk]|H].
    + rewrite (normalize_columns_lower _ _ Hin) in Hk. by subst.
    + by rewrite lookup_empty in H.
  - intros [-> Hin].
    destruct (column_map_of_acc_is_Some (normalize_columns headers) ∅ k) as [v Hv].
    { left. exists k. split; [done|]. by eapply normalize_columns_lower. }
    rewrite Hv. f_equal.
    apply column_map_of_acc_lookup in Hv as [[Hin' Hk]|H].
    + by rewrite (normalize_columns_lower _ _ Hin') in Hk.
    + by rewrite lookup_empty in H.
Qed.

(** What the loop of [get_column_if_exists] returns. *)
Lemma first_known_Some names (m : gmap string string) v :
  first_known names m = Some v <->
  exists pre s post,
    names = (pre ++ s :: post)%list /\ m !! Py.lower s = Some v /\
    forall t, t ∈ pre -> m !! Py.lower t = None.
Proof.
  induction names as [|n names IH]; simpl.
  - split; [done|]. intros (pre & s & post & H & _). by destruct pre.
  - destruct (m !! Py.lower n) as [o|] eqn:Hn.
    + split.
      * intros [= <-]. exists [], n, names. split_and!; [done..|].
        intros t Ht. by apply elem_of_nil in Ht.
      * intros (pre & s & post & H & Hs & Hpre). destruct pre as [|p pre].
        -- injection H as -> ->. congruence.
        -- injection H as -> _. rewrite Hpre in Hn; [done|by left].
    + rewrite IH. split.
      * intros (pre & s & post & -> & Hs & Hpre).
        exists (n :: pre), s, post. split_and!; [done..|].
        intros t [->|Ht]%elem_of_cons; auto.
      * intros (pre & s & post & H & Hs & Hpre). destruct pre as [|p pre].
        -- injection H as -> ->. congruence.
        -- injection H as -> ->. exists pre, s, post. split_and!; [done..|].
           intros t Ht. apply Hpre. by right.
Qed.

Lemma first_known_None names (m : gmap string string) :
  first_known names m = None <-> forall s, s ∈ names -> m !! Py.lower s = None.
Proof.
  induction names as [|n names IH]; simpl.
  - split; [|done]. intros _ s Hs. by apply elem_of_nil in Hs.
  - destruct (m !! Py.lower n) eqn:Hn.
    + split; [done|]. intros H. rewrite H in Hn; [done|by left].
    + rewrite IH. split.
      * intros H s [->|Hs]%elem_of_cons; auto.
      * intros H s Hs. apply H. by right.
Qed.

Lemma names_of_lower r s : s ∈ names_of r -> Py.lower s = s.
Proof.
  destruct r; simpl; unfold STATUS_NAMES, DATE_NAMES, COMPANY_NAMES;
    rewrite ?elem_of_cons, elem_of_nil; intros H;
    repeat (destruct H as [->|H]; [reflexivity|]); done.
Qed.

(** ** Column resolution *)

(** C1, as amended.  On the frame read from a sheet, a role (status, date
    or company) resolves exactly when the normalized text (trimmed,
    lower-cased) of some header equals one of the role's synonyms; the
    result is at most one header, a column of the frame; and when several
    headers match, the header bound is the one matching the highest-ranked
    synonym: every synonym ranked before it is absent from the headers,
    whatever the order of the headers. *)
Theorem C1_resolution_by_synonym_rank (r : role) (headers : list string)
    (cells : list (list cell)) :
  let df := fetched headers cells in
  (is_Some (resolve r df) <->
     exists h, h ∈ headers /\ Py.lower (Py.strip h) ∈ names_of r) /\
  (forall bound, resolve r df = Some bound ->
     bound ∈ columns df /\
     exists pre post,
       names_of r = (pre ++ bound :: post)%list /\
       forall s, s ∈ pre -> s ∉ columns df).
Proof.
  simpl. unfold resolve, get_column_if_exists. simpl. split.
  - split.
    + intros [v (pre & s & post & Hn & Hs & _)%first_known_Some].
      assert (s ∈ names_of r) as Hin
        by (rewrite Hn, elem_of_app, elem_of_cons; auto).
      rewrite (names_of_lower _ _ Hin) in Hs.
      apply column_map_of_normalized in Hs as [_ Hs].
      unfold normalize_columns in Hs.
      apply list_elem_of_fmap in Hs as (h & -> & Hh). eauto.
    + intros (h & Hh & Hin).
      destruct (first_known (names_of r) _) eqn:E; [eauto|].
      rewrite first_known_None in E. specialize (E _ Hin).
      rewrite (names_of_lower _ _ Hin) in E.
      assert (column_map_of (normalize_columns headers) !! Py.lower (Py.strip h)
              = Some (Py.lower (Py.strip h))) as E'.
      { apply column_map_of_normalized. split; [done|].
        unfold normalize_columns. apply list_elem_of_fmap. eauto. }
      congruence.
  - intros bound (pre & s & post & Hn & Hs & Hpre)%first_known_Some.
    assert (s ∈ names_of r) as Hin
      by (rewrite Hn, elem_of_app, elem_of_cons; auto).
    rewrite (names_of_lower _ _ Hin) in Hs.
    apply column_map_of_normalized in Hs as [-> Hs].
    split; [done|]. exists pre, post. split; [done|].
    intros t Ht Hcol.
    assert (t ∈ names_of r) as Hint by (rewrite Hn, elem_of_app; auto).
    specialize (Hpre _ Ht). rewrite (names_of_lower _ _ Hint) in Hpre.
    assert (column_map_of (normalize_columns headers) !! t = Some t) as E
      by by apply column_map_of_normalized.
    congruence.
Qed.

(** C1 on the headers "Job Status" and "Status": the role resolves and the
    header bound is a column of the frame. *)
Lemma C1_resolution_by_synonym_rank_witness :
  "status" ∈ normalize_columns ["Job Status"; "Status"] /\
  is_Some (resolve StatusRole (fetched ["Job Status"; "Status"] [])).
Proof.
  destruct (C1_resolution_by_synonym_rank StatusRole ["Job Status"; "Status"] [])
    as [Hiff Hbound].
  split.
  - by destruct (Hbound "status" eq_refl) as [Hin _].
  - apply Hiff. exists "Status". split; [by right; left|by left].
Defined.

(** C1, the claim as stated fails: with the headers "Job Status" and
    "Status", in this order, the first header whose text matches a synonym
    is "job status", but the code binds "status", the higher-ranked
    synonym. *)
Lemma C1_header_order_counterexample :
  let headers := ["Job Status"; "Status"] in
  let df := fetched headers [] in
  first_matching_header StatusRole headers = Some "job status" /\
  resolve StatusRole df = Some "status" /\
  resolve StatusRole df <> first_matching_header StatusRole headers.
Proof. vm_compute. split_and!; [reflexivity..|discriminate]. Qed.

(** ** Splitting a reference *)

Lemma append_cons c s t : String c s +:+ t = String c (s +:+ t).
Proof. reflexivity. Qed.

Lemma append_nil_l t : "" +:+ t = t.
Proof. reflexivity. Qed.

Lemma append_nil_r s : s +:+ "" = s.
Proof. induction s as [|c s IH]; [done|]. by rewrite append_cons, IH. Qed.

Lemma append_assoc s t u : (s +:+ t) +:+ u = s +:+ t +:+ u.
Proof. induction s as [|c s IH]; [done|]. by rewrite !append_cons, IH. Qed.

Lemma startswith_spec w s :
  Py.startswith w s = true <-> exists q, s = w +:+ q.
Proof.
  revert s. induction w as [|a w IH]; intros s; simpl.
  - split; [|done]. intros _. by exists s.
  - destruct s as [|b s].
    + split; [done|]. intros [q Hq]. by rewrite append_cons in Hq.
    + destruct (ascii_dec a b) as [->|Hne].
      * rewrite IH. split; intros [q Hq]; exists q.
        -- by rewrite append_cons, Hq.
        -- rewrite append_cons in Hq. by injection Hq.
      * split; [done|]. intros [q Hq]. rewrite append_cons in Hq. congruence.
Qed.

Lemma startswith_app w q : Py.startswith w (w +:+ q) = true.
Proof. apply startswith_spec. eauto. Qed.

(** [w in s] is [s.find(w) != -1]. *)
Lemma contains_find w s : Py.contains w s = bool_decide (is_Some (Py.find w s)).
Proof.
  induction s as [|c s IH]; simpl.
  - by destruct (Py.startswith w "").
  - destruct (Py.startswith w (String c s)); simpl; [done|]. rewrite IH.
    apply bool_decide_ext. by rewrite fmap_is_Some.
Qed.

(** [s.find(w)] returns the length of the text before an occurrence. *)
Lemma find_Some w s n :
  Py.find w s = Some n ->
  exists pre tail, s = pre +:+ w +:+ tail /\ String.length pre = n.
Proof.
  revert n. induction s as [|c s IH]; intros n; simpl.
  - destruct (Py.startswith w "") eqn:E; [|done].
    intros [= <-]. apply startswith_spec in E as [q ->]. by exists "", q.
  - destruct (Py.startswith w (String c s)) eqn:E.
    + intros [= <-]. apply startswith_spec in E as [q ->]. by exists "", q.
    + destruct (Py.find w s) as [m|]; [|done]. intros [= <-].
      destruct (IH m eq_refl) as (pre & tail & -> & <-).
      by exists (String c pre), tail.
Qed.

(** A text occurs in [s] exactly when [s] can be cut around it. *)
Lemma contains_spec w s :
  Py.contains w s = true <-> exists pre tail, s = pre +:+ w +:+ tail.
Proof.
  split.
  - rewrite contains_find. intros [n Hn]%bool_decide_eq_true.
    destruct (find_Some _ _ _ Hn) as (pre & tail & -> & _). eauto.
  - intros (pre & tail & ->). induction pre as [|c pre IH].
    + rewrite append_nil_l.
      assert (Py.startswith w (w +:+ tail) = true) as E by apply startswith_app.
      destruct (w +:+ tail); simpl; by rewrite E.
    + rewrite append_cons. simpl. rewrite IH. apply orb_true_r.
Qed.

Lemma split_go_skip sep a t :
  Py.split_go sep (String.length a) (a +:+ t) = Py.split_go sep 0 t.
Proof.
  induction a as [|c a IH]; [done|].
  rewrite append_cons. simpl. exact IH.
Qed.

(** At an occurrence of the separator a piece ends. *)
Lemma split_go_match c sep t :
  Py.split_go (String c sep) 0 (String c sep +:+ t) =
  ("", let '(piece, others) := Py.split_go (String c sep) 0 t in piece :: others).
Proof.
  pose proof (startswith_app (String c sep) t) as E.
  rewrite append_cons in *. unfold Py.split_go at 1; fold Py.split_go.
  rewrite E. replace (String.length (String c sep) - 1) with (String.length sep)
    by (simpl; lia).
  by rewrite split_go_skip.
Qed.

(** The first piece is the text before the first occurrence. *)
Lemma split_go_find c sep pre tail :
  Py.find (String c sep) (pre +:+ String c sep +:+ tail) = Some (String.length pre) ->
  Py.split_go (String c sep) 0 (pre +:+ String c sep +:+ tail) =
  (pre, let '(piece, others) := Py.split_go (String c sep) 0 tail in piece :: others).
Proof.
  induction pre as [|a pre IH]; intros H.
  - rewrite append_nil_l. apply split_go_match.
  - rewrite (append_cons a) in *. unfold Py.find in H; fold Py.find in H.
    unfold Py.split_go; fold Py.split_go.
    destruct (Py.startswith (String c sep) (String a (pre +:+ String c sep +:+ tail)));
      [done|].
    destruct (Py.find (String c sep) (pre +:+ String c sep +:+ tail)) as [n|] eqn:E;
      [|done].
    simpl in H. injection H as ->.
    by rewrite IH.
Qed.

(** Without an occurrence there is one piece, the whole text. *)
Lemma split_go_absent sep s :
  Py.find sep s = None -> Py.split_go sep 0 s = (s, []).
Proof.
  induction s as [|a s IH]; [done|].
  unfold Py.find; fold Py.find. unfold Py.split_go; fold Py.split_go.
  destruct (Py.startswith sep (String a s)); [done|].
  destruct (Py.find sep s); [done|]. intros _. by rewrite IH.
Qed.

(** The first piece is a prefix of the text. *)
Lemma split_go_prefix sep s :
  exists q, s = fst (Py.split_go sep 0 s) +:+ q.
Proof.
  induction s as [|a s [q IH]]; [by exists ""|].
  unfold Py.split_go; fold Py.split_go.
  destruct (Py.startswith sep (String a s)).
  - by exists (String a s).
  - destruct (Py.split_go sep 0 s) as [piece others]. simpl in *.
    exists q. by rewrite append_cons, <- IH.
Qed.

Lemma find_char_cons c a s :
  Py.find (String c "") (String a s) = None ->
  a <> c /\ Py.find (String c "") s = None.
Proof.
  unfold Py.find; fold Py.find. simpl.
  destruct (ascii_dec c a) as [->|Hne]; [done|].
  destruct (Py.find (String c "") s); [done|]. auto.
Qed.

(** Text free of the separator's first character stays in the first piece. *)
Lemma split_go_clear c sep ident rest :
  Py.find (String c "") ident = None ->
  fst (Py.split_go (String c sep) 0 (ident +:+ rest)) =
  ident +:+ fst (Py.split_go (String c sep) 0 rest).
Proof.
  induction ident as [|a ident IH]; intros H; [done|].
  apply find_char_cons in H as [Hne H].
  rewrite !append_cons. unfold Py.split_go at 1; fold Py.split_go. simpl.
  destruct (ascii_dec c a) as [->|_]; [done|].
  specialize (IH H).
  destruct (Py.split_go (String c sep) 0 (ident +:+ rest)). simpl in *.
  by rewrite IH.
Qed.

Lemma split_go_stops c sep rest :
  rest = "" \/ Py.startswith (String c "") rest = true ->
  fst (Py.split_go (String c sep) 0 rest) = "" \/
  Py.startswith (String c "") (fst (Py.split_go (String c sep) 0 rest)) = true.
Proof.
  intros [->|H]; [by left|].
  destruct (split_go_prefix (String c sep) rest) as [q Hq].
  destruct (fst (Py.split_go (String c sep) 0 rest)) as [|a piece]; [by left|].
  right. rewrite Hq in H. rewrite append_cons in H. simpl in *.
  by destruct (ascii_dec c a).
Qed.

(** [sheet_url.split("/d/")[1].split("/")[0]] when the marker is present. *)
Lemma sheet_id_of_marker pre ident rest :
  Py.find "/d/" (pre +:+ "/d/" +:+ ident +:+ rest) = Some (String.length pre) ->
  Py.find "/" ident = None ->
  rest = "" \/ Py.startswith "/" rest = true ->
  sheet_id_of (pre +:+ "/d/" +:+ ident +:+ rest) = Ok ident.
Proof.
  intros Hfirst Hident Hrest. unfold sheet_id_of, Py.split.
  rewrite (split_go_find "/" "d/" pre (ident +:+ rest) Hfirst).
  pose proof (split_go_clear "/" "d/" ident rest Hident) as Hpiece.
  pose proof (split_go_stops "/" "d/" rest Hrest) as Hstop.
  destruct (Py.split_go "/d/" 0 (ident +:+ rest)) as [piece others].
  simpl in Hpiece. subst piece. simpl.
  set (tail := fst (Py.split_go "/d/" 0 rest)) in *.
  pose proof (split_go_clear "/" "" ident tail Hident) as Hid.
  assert (fst (Py.split_go "/" 0 tail) = "") as Htail.
  { destruct Hstop as [->|Hs]; [done|].
    apply startswith_spec in Hs as [q ->]. by rewrite split_go_match. }
  rewrite Htail, append_nil_r in Hid.
  destruct (Py.split_go "/" 0 (ident +:+ tail)) as [p o]. simpl in *. by subst.
Qed.

(** Without the marker, index 1 of the split is out of range. *)
Lemma sheet_id_of_no_marker sheet_url :
  Py.contains "/d/" sheet_url = false ->
  sheet_id_of sheet_url = Raise IndexError.
Proof.
  rewrite contains_find. intros H%bool_decide_eq_false.
  assert (Py.find "/d/" sheet_url = None) as E
    by (destruct (Py.find "/d/" sheet_url); [by destruct H|done]).
  unfold sheet_id_of, Py.split. by rewrite (split_go_absent _ _ E).
Qed.

(** With the marker, both indexings succeed. *)
Lemma sheet_id_of_defined sheet_url :
  Py.contains "/d/" sheet_url = true -> exists ident, sheet_id_of sheet_url = Ok ident.
Proof.
  rewrite contains_find. intros [n Hn]%bool_decide_eq_true.
  destruct (find_Some _ _ _ Hn) as (pre & tail & -> & <-).
  unfold sheet_id_of, Py.split. rewrite (split_go_find "/" "d/" pre tail Hn).
  destruct (Py.split_go "/d/" 0 tail) as [piece others]. simpl.
  destruct (Py.split_go "/" 0 piece) as [ident o]. simpl. eauto.
Qed.

Section SourceReference.
Context {pandas : Pandas}.

(** C7.  For a reference that holds the marker "/d/", first at the end of
    [pre], followed by an identifier free of "/" and then by "/" or by
    nothing, the download endpoint is the export template filled with that
    identifier; the transformation fails exactly on the references that do
    not hold the marker, and the failure is caught: refreshing shows the
    error panel of the dashboard, in [main7.py] and in [app.py], and
    creating shows the error card. *)
Theorem C7_source_reference (w : World) (username : string) :
  (forall pre ident rest,
     Py.find "/d/" (pre +:+ "/d/" +:+ ident +:+ rest) = Some (String.length pre) ->
     Py.contains "/" ident = false ->
     rest = "" \/ Py.startswith "/" rest = true ->
     csv_url_of (pre +:+ "/d/" +:+ ident +:+ rest) =
     Ok ("https://docs.google.com/spreadsheets/d/" +:+ ident +:+ "/export?format=csv")) /\
  (forall sheet_url,
     Py.contains "/d/" sheet_url = false <-> csv_url_of sheet_url = Raise IndexError) /\
  (forall sheet_url,
     Py.contains "/d/" sheet_url = false ->
     (forall text,
        open_read w ("dashboard_sheeturl_" +:+ username +:+ ".txt") = Ok text ->
        Py.strip text = sheet_url ->
        build_dashboard_content w username = ErrorDiv username IndexError) /\
     (forall n, username <> "" -> sheet_url <> "" ->
        create_user_dashboard w n (Some username) (Some sheet_url) =
        ErrorCreating IndexError) /\
     App.build_dashboard_content w sheet_url = ErrorDiv sheet_url IndexError).
Proof.
  split_and!.
  - intros pre ident rest Hfirst Hident Hrest. unfold csv_url_of.
    rewrite sheet_id_of_marker; [done..| |done].
    rewrite contains_find in Hident. apply bool_decide_eq_false in Hident.
    destruct (Py.find "/" ident); [by destruct Hident|done].
  - intros sheet_url. unfold csv_url_of. split.
    + intros H. by rewrite sheet_id_of_no_marker.
    + intros H. destruct (Py.contains "/d/" sheet_url) eqn:E; [|done].
      destruct (sheet_id_of_defined _ E) as [ident Hid]. by rewrite Hid in H.
  - intros sheet_url H. split_and!.
    + intros text Hopen Hstrip. unfold build_dashboard_content.
      rewrite Hopen. simpl. rewrite Hstrip. unfold csv_url_of.
      by rewrite sheet_id_of_no_marker.
    + intros n Hu Hs. unfold create_user_dashboard.
      destruct username; [done|]. destruct sheet_url; [done|]. simpl.
      unfold csv_url_of. by rewrite sheet_id_of_no_marker.
    + unfold App.build_dashboard_content, csv_url_of.
      by rewrite sheet_id_of_no_marker.
Qed.

End SourceReference.

(** C7 on two references: one of a sheet, one without the marker. *)
Lemma C7_source_reference_witness :
  csv_url_of "https://docs.google.com/spreadsheets/d/abc123/edit#gid=0" =
    Ok "https://docs.google.com/spreadsheets/d/abc123/export?format=csv" /\
  build_dashboard_content (pandas := reference_pandas)
    (sample_world "https://example.com/sheet" (Raise (URLError ""))) "ada" =
    ErrorDiv "ada" IndexError.
Proof.
  destruct (C7_source_reference (pandas := reference_pandas)
              (sample_world "https://example.com/sheet" (Raise (URLError ""))) "ada")
    as (Hform & Hiff & Hfail).
  split.
  - apply (Hform "https://docs.google.com/spreadsheets" "abc123" "/edit#gid=0");
      [reflexivity | reflexivity | right; reflexivity].
  - destruct (Hfail "https://example.com/sheet" eq_refl) as [Hbuild _].
    apply (Hbuild "https://example.com/sheet"); reflexivity.
Defined.

(** ** Reading a column *)

Lemma column_index_elem cols c :
  c ∈ cols -> exists i, column_index cols c = Some i.
Proof.
  induction cols as [|d cols IH]; intros H; [by apply elem_of_nil in H|].
  simpl. destruct (decide (d = c)) as [|Hne]; [eauto|].
  apply elem_of_cons in H as [->|H]; [done|].
  destruct (IH H) as [i ->]. simpl. eauto.
Qed.

Lemma getitem_at df c i :
  column_index (columns df) c = Some i ->
  getitem df c = Ok (map (fun row => nth i row NaN) (rows df)).
Proof. intros H. unfold getitem. by rewrite H. Qed.

Lemma getitem_elem df c :
  c ∈ columns df ->
  exists series, getitem df c = Ok series /\ length series = len df.
Proof.
  intros [i Hi]%column_index_elem. unfold getitem. rewrite Hi.
  eexists. split; [done|]. unfold len. by rewrite length_map.
Qed.

Lemma resolve_in r headers cells c :
  resolve r (fetched headers cells) = Some c ->
  c ∈ normalize_columns headers /\ c ∈ names_of r.
Proof.
  unfold resolve, get_column_if_exists. simpl.
  intros (pre & s & post & Hn & Hs & _)%first_known_Some.
  assert (s ∈ names_of r) as Hin
    by (rewrite Hn, elem_of_app, elem_of_cons; auto).
  rewrite (names_of_lower _ _ Hin) in Hs.
  by apply column_map_of_normalized in Hs as [-> Hs].
Qed.

Lemma names_of_nonempty r c : c ∈ names_of r -> truthy (Some c) = Some c.
Proof.
  destruct r; simpl; unfold STATUS_NAMES, DATE_NAMES, COMPANY_NAMES;
    rewrite ?elem_of_cons, elem_of_nil; intros H;
    repeat (destruct H as [->|H]; [reflexivity|]); done.
Qed.

(** ** Text series *)

Lemma existsb_is_str_lower series :
  existsb is_str (map lower_cell series) = existsb is_str series.
Proof.
  induction series as [|d l IH]; [done|]. simpl. rewrite IH. by destruct d.
Qed.

Lemma holds_text_lower series :
  holds_text (map lower_cell series) = holds_text series.
Proof.
  destruct series as [|c series]; [done|].
  apply (existsb_is_str_lower (c :: series)).
Qed.

Lemma str_lower_text series :
  holds_text series = true -> str_lower series = Ok (map lower_cell series).
Proof. intros H. unfold str_lower, str_accessor. by rewrite H. Qed.

Lemma str_lower_no_text series :
  holds_text series = false -> str_lower series = Raise AttributeError.
Proof. intros H. unfold str_lower, str_accessor. by rewrite H. Qed.

Lemma count_true_map {A} (f : A -> bool) (l : list A) :
  count_true (map f l) = length (filter (fun x => f x = true) l).
Proof.
  unfold count_true. induction l as [|x l IH]; [done|].
  simpl. rewrite !filter_cons. destruct (f x) eqn:E.
  - rewrite !decide_True by done. simpl. by rewrite IH.
  - rewrite !decide_False by done. exact IH.
Qed.

Lemma regex_search_mentions pat case t :
  regex_search pat case (Py.lower t) =
  mentions (if case then Py.split "|" pat else map Py.lower (Py.split "|" pat)) (Str t).
Proof.
  unfold regex_search, mentions. destruct case; [done|].
  rewrite lower_idem.
  induction (Py.split "|" pat) as [|w l IH]; [done|].
  simpl. by rewrite IH.
Qed.

(** The mask that [.str.contains(pat, case, na=False)] gives on the
    lower-cased copy of a series that holds text. *)
Lemma str_contains_lowered pat case series :
  holds_text series = true ->
  str_contains pat case (map lower_cell series) =
  Ok (map (mentions (if case then Py.split "|" pat
                     else map Py.lower (Py.split "|" pat))) series).
Proof.
  intros H. unfold str_contains, str_accessor. rewrite holds_text_lower, H. simpl.
  f_equal. rewrite map_map. apply map_ext. intros [t| |t|]; try done.
  apply regex_search_mentions.
Qed.


(** ** Status counters *)


Lemma count_status_text df pat cm c series :
  truthy (get_column_if_exists df STATUS_NAMES (Some cm)) = Some c ->
  getitem df c = Ok series ->
  holds_text series = true ->
  count_status df pat cm = Ok (matching (map Py.lower (Py.split "|" pat)) series).
Proof.
  intros Hc Hget Htext. unfold count_status. rewrite Hc, Hget. simpl.
  rewrite (str_lower_text _ Htext). simpl.
  rewrite (str_contains_lowered _ false _ Htext). simpl.
  by rewrite count_true_map.
Qed.

Lemma success_rate_text df cm c series :
  truthy (get_column_if_exists df STATUS_NAMES (Some cm)) = Some c ->
  len df <> 0%nat ->
  getitem df c = Ok series ->
  holds_text series = true ->
  calculate_success_rate df cm =
  Ok (percent_label (matching SUCCESS_WORDS series) (len df)).
Proof.
  intros Hc Hlen Hget Htext. unfold calculate_success_rate. rewrite Hc.
  rewrite decide_False by done. rewrite Hget. simpl.
  rewrite (str_lower_text _ Htext). simpl.
  rewrite (str_contains_lowered _ true _ Htext). simpl.
  by rewrite count_true_map.
Qed.

(** A non-empty status column without any text stops both counters. *)
Lemma status_without_text df cm c series :
  truthy (get_column_if_exists df STATUS_NAMES (Some cm)) = Some c ->
  len df <> 0%nat ->
  getitem df c = Ok series ->
  holds_text series = false ->
  calculate_success_rate df cm = Raise AttributeError /\
  forall pat, count_status df pat cm = Raise AttributeError.
Proof.
  intros Hc Hlen Hget Htext. unfold calculate_success_rate, count_status.
  rewrite Hc, decide_False by done. rewrite Hget. simpl.
  by rewrite (str_lower_no_text _ Htext).
Qed.


Lemma resolve_status_truthy headers cells c :
  resolve StatusRole (fetched headers cells) = Some c ->
  truthy (get_column_if_exists (fetched headers cells) STATUS_NAMES
            (Some (column_map_of (columns (fetched headers cells))))) = Some c.
Proof.
  intros H. destruct (resolve_in _ _ _ _ H) as [_ Hn].
  unfold resolve in H. change (names_of StatusRole) with STATUS_NAMES in H.
  rewrite H. by apply (names_of_nonempty StatusRole).
Qed.

(** C2, as amended.  On the frame read from a sheet, the success rate is
    "N/A" when no header resolves the status role; "0%" when the role
    resolves and there is no row; and otherwise, when the status column
    holds some text, the label [round((matches/total)*100)] followed by
    "%", where the quotient and the product are computed in double
    precision in this order, [matches] counts the rows whose lower-cased
    status text contains one of approved, shortlisted, interview, offer,
    and [total] counts all rows (the headers being distinct once
    normalized). *)
Theorem C2_success_rate (headers : list string) (cells : list (list cell)) :
  let df := fetched headers cells in
  let column_map := column_map_of (columns df) in
  (resolve StatusRole df = None ->
     calculate_success_rate df column_map = Ok "N/A") /\
  (forall c, resolve StatusRole df = Some c ->
     len df = 0%nat -> calculate_success_rate df column_map = Ok "0%") /\
  (forall c, resolve StatusRole df = Some c ->
     len df <> 0%nat ->
     NoDup (columns df) ->
     exists series,
       getitem df c = Ok series /\
       length series = len df /\
       (holds_text series = true ->
        calculate_success_rate df column_map =
        Ok (percent_label (matching SUCCESS_WORDS series) (len df)))).
Proof.
  intros df column_map. split_and!.
  - intros H. unfold calculate_success_rate. unfold resolve in H.
    change (names_of StatusRole) with STATUS_NAMES in H.
    subst column_map. by rewrite H.
  - intros c H Hlen. unfold calculate_success_rate.
    subst column_map df. rewrite (resolve_status_truthy _ _ _ H).
    by rewrite decide_True.
  - intros c H Hlen _. destruct (resolve_in _ _ _ _ H) as [Hcol _].
    destruct (getitem_elem df c Hcol) as (series & Hget & Hlength).
    exists series. split_and!; [done..|]. intros Htext.
    eapply success_rate_text; [|done..].
    by apply resolve_status_truthy.
Qed.

(** C2 on the example of the specification: one of two rows is a success. *)
Lemma C2_success_rate_witness :
  calculate_success_rate (fetched example_headers example_rows)
    (column_map_of (columns (fetched example_headers example_rows))) = Ok "50%".
Proof.
  destruct (C2_success_rate example_headers example_rows) as (_ & _ & H).
  destruct (H "status") as (series & Hget & _ & Hrate);
    [reflexivity | discriminate | compute_done |].
  vm_compute in Hget. injection Hget as <-.
  rewrite Hrate by reflexivity. vm_compute. reflexivity.
Defined.

(** C2, the claim as stated fails: with 23 successes in 40 rows the exact
    quotient is 57.5, which rounds to 58, but the code shows "57%": the
    product [(23/40)*100] is the double just below 57.5. *)
Lemma C2_rounding_counterexample :
  let df := fetched ["Status"] forty_rows in
  resolve StatusRole df = Some "status" /\
  len df = 40%nat /\
  matching SUCCESS_WORDS (map (fun row => nth 0 row NaN) forty_rows) = 23%nat /\
  exact_percent_label 23 40 = "58%" /\
  calculate_success_rate df (column_map_of (columns df)) = Ok "57%".
Proof. vm_compute. split_and!; reflexivity. Qed.

Section StatusAbsent.
Context {pandas : Pandas}.




End StatusAbsent.


(** ** Builds and refreshes *)

Section Builds.
Context {pandas : Pandas}.

(** The three ways a build ends: no endpoint, no sheet, or the result of
    the pipeline on the sheet. *)
Lemma build_cases w username :
  build_dashboard_content w username =
  match requested_url w username with
  | Raise e => ErrorDiv username e
  | Ok csv_url =>
      match read_csv w csv_url with
      | Raise e => ErrorDiv username e
      | Ok sheet =>
          let df := fetched (columns sheet) (rows sheet) in
          try_except (dashboard_of w df (load_column_map w username df))
            (ErrorDiv username)
      end
  end.
Proof.
  unfold build_dashboard_content, requested_url.
  destruct (open_read w _) as [text|e]; [simpl|done].
  destruct (csv_url_of (Py.strip text)) as [csv_url|e]; [simpl|done].
  by destruct (read_csv w csv_url) as [sheet|e].
Qed.

(** C4, as amended.  A refresh replaces the content shown by the result of
    its own build, whatever was shown before: when the build fails (no
    readable reference or endpoint, a failed fetch, an exception in the
    pipeline) the page shows the inline error, on the first build and on
    every later refresh alike; otherwise it shows the complete dashboard
    of that build.  The stored user name is unchanged. *)
Theorem C4_refresh_replaces_content (shown : Page)
    (n_clicks n_intervals : option nat) (w : World) :
  let username := stored_username shown in
  let after := refresh shown n_clicks n_intervals w in
  stored_username after = username /\
  dashboard_content after = build_dashboard_content w username /\
  dashboard_content (open_page w username) = build_dashboard_content w username /\
  (forall e, requested_url w username = Raise e ->
     dashboard_content after = ErrorDiv username e) /\
  (forall csv_url e,
     requested_url w username = Ok csv_url -> read_csv w csv_url = Raise e ->
     dashboard_content after = ErrorDiv username e) /\
  (forall csv_url sheet,
     requested_url w username = Ok csv_url -> read_csv w csv_url = Ok sheet ->
     let df := fetched (columns sheet) (rows sheet) in
     let column_map := load_column_map w username df in
     (forall e, dashboard_of w df column_map = Raise e ->
        dashboard_content after = ErrorDiv username e) /\
     (forall built, dashboard_of w df column_map = Ok built ->
        dashboard_content after = built)).
Proof.
  intros username after. subst after username. unfold refresh, open_page,
    update_dashboard_content, dashboard_layout. simpl.
  split_and!; [done..| | |].
  - intros e H. by rewrite build_cases, H.
  - intros csv_url e H Hread. by rewrite build_cases, H, Hread.
  - intros csv_url sheet H Hread.
    rewrite build_cases, H, Hread. simpl.
    split; intros x Hx; by rewrite Hx.
Qed.


End Builds.

(** C4 on a fetch that fails after the dashboard was shown. *)
Lemma C4_refresh_replaces_content_witness :
  dashboard_content
    (refresh (pandas := reference_pandas)
       (open_page (pandas := reference_pandas) sheet_served "ada")
       (Some 1%nat) (Some 0%nat) sheet_unreachable) =
  ErrorDiv "ada" (URLError "export?format=csv").
Proof.
  destruct (C4_refresh_replaces_content (pandas := reference_pandas)
              (open_page (pandas := reference_pandas) sheet_served "ada")
              (Some 1%nat) (Some 0%nat) sheet_unreachable)
    as (_ & _ & _ & _ & Hfetch & _).
  apply (Hfetch "https://docs.google.com/spreadsheets/d/abc123/export?format=csv");
    reflexivity.
Defined.

(** C4, the claim as stated fails: the dashboard of the first build is
    shown, the next refresh cannot fetch the sheet, and the page shows the
    inline error instead of the dashboard that the claim says is kept. *)
Lemma C4_prior_view_counterexample :
  let first := open_page (pandas := reference_pandas) sheet_served "ada" in
  let second :=
    refresh (pandas := reference_pandas) first (Some 1%nat) (Some 0%nat)
      sheet_unreachable in
  (exists content, dashboard_content first = Dashboard content) /\
  retained (dashboard_content first) (dashboard_content second) =
    dashboard_content first /\
  dashboard_content second = ErrorDiv "ada" (URLError "export?format=csv") /\
  dashboard_content second <> dashboard_content first.
Proof.
  vm_compute. split_and!; [eexists; reflexivity | reflexivity | reflexivity | discriminate].
Qed.


(** ** The date column after [get_recent_activity] *)

Section RecentActivity.
Context {pandas : Pandas}.

Lemma to_datetime_no_text series :
  Forall (fun c => is_str c = false) (to_datetime series).
Proof.
  unfold to_datetime. apply Forall_forall. intros c Hc.
  apply elem_of_lookup_imap in Hc as (i & x & -> & _).
  destruct x; try done. by destruct (infer_datetime series i).
Qed.

(** The frame handed back is the caller's frame with the date column
    overwritten by the parsed dates. *)
Lemma get_recent_activity_frame df cm c series :
  truthy (get_column_if_exists df DATE_NAMES (Some cm)) = Some c ->
  getitem df c = Ok series ->
  snd (get_recent_activity df cm) = setitem df c (to_datetime series).
Proof.
  intros Hc Hget. unfold get_recent_activity. rewrite Hc, Hget.
  destruct (getitem (setitem df c (to_datetime series)) c) as [parsed|e]; simpl;
    [|done].
  by destruct (series_max parsed).
Qed.

End RecentActivity.

(** C3 at the failing input: the sheet of ["ada"] holds the dates
    "2024-01-01" and "next week"; the rows handed to the table hold a
    parsed instant and [NaT] in their place, because [get_recent_activity]
    assigned the parsed column to the frame that the table is built from. *)
Theorem C3_raw_dates_overwritten :
  exists content,
    build_dashboard_content (pandas := reference_pandas) sheet_served "ada" =
      Dashboard content /\
    to_dict_records (fetched (columns example_sheet) (rows example_sheet)) =
      [[("company", Str "Acme"); ("status", Str "Approved");
        ("date", Str "2024-01-01")];
       [("company", Str "Beta"); ("status", Str "Applied");
        ("date", Str "next week")]] /\
    table_data content =
      [[("company", Str "Acme"); ("status", Str "Approved");
        ("date", Timestamp 20240101)];
       [("company", Str "Beta"); ("status", Str "Applied"); ("date", NaT)]].
Proof. eexists. vm_compute. split_and!; reflexivity. Qed.

(** ** Overlapping refreshes *)

Section Overlap.
Context {pandas : Pandas}.





End Overlap.



(** ** Value counts *)

Lemma unique_elem (x : cell) l : x ∈ unique l <-> x ∈ l.
Proof.
  induction l as [|c l IH]; simpl; [done|].
  rewrite !elem_of_cons, list_elem_of_filter, IH.
  destruct (decide (x = c)); tauto.
Qed.

Lemma unique_NoDup l : NoDup (unique l).
Proof.
  induction l as [|c l IH]; simpl; [constructor|].
  apply NoDup_cons. split.
  - rewrite list_elem_of_filter. by intros [? _].
  - by apply NoDup_filter.
Qed.

Lemma dropna_elem x l : x ∈ dropna l <-> isna x = false /\ x ∈ l.
Proof. unfold dropna. apply (list_elem_of_filter (fun c => isna c = false)). Qed.

Lemma occurrences_dropna x l :
  isna x = false -> occurrences x (dropna l) = occurrences x l.
Proof.
  intros Hx. unfold occurrences, dropna. f_equal.
  rewrite list_filter_filter. apply list_filter_iff.
  intros d. split; [by intros [? _]|]. intros ->. done.
Qed.

Lemma occurrences_pos x l : x ∈ l -> 0 < occurrences x l.
Proof.
  intros H. unfold occurrences.
  assert (x ∈ filter (fun d => d = x) l) as Hin by by apply list_elem_of_filter.
  destruct (filter _ l); [by apply elem_of_nil in Hin|simpl; lia].
Qed.

Lemma insert_by_count_perm x l : insert_by_count x l ≡ₚ x :: l.
Proof.
  induction l as [|y l IH]; simpl; [done|].
  destruct (snd x <? snd y)%nat; [|done].
  rewrite IH. apply Permutation_swap.
Qed.

Lemma sort_by_count_perm l : sort_by_count l ≡ₚ l.
Proof.
  induction l as [|x l IH]; simpl; [done|].
  by rewrite insert_by_count_perm, IH.
Qed.

Lemma insert_by_count_sorted x l :
  StronglySorted by_count l -> StronglySorted by_count (insert_by_count x l).
Proof.
  induction 1 as [|y l Hl IH Hy]; simpl; [repeat constructor|].
  destruct (snd x <? snd y)%nat eqn:E.
  - apply Nat.ltb_lt in E. constructor; [done|].
    rewrite insert_by_count_perm. constructor; [unfold by_count; lia|done].
  - apply Nat.ltb_ge in E. constructor; [by constructor|].
    constructor; [done|].
    eapply Forall_impl; [exact Hy|]. unfold by_count. intros z Hz. lia.
Qed.

Lemma sort_by_count_sorted l : StronglySorted by_count (sort_by_count l).
Proof.
  induction l as [|x l IH]; simpl; [constructor|].
  by apply insert_by_count_sorted.
Qed.



Lemma value_counts_elem series x n :
  (x, n) ∈ value_counts series <->
  isna x = false /\ x ∈ series /\ n = occurrences x series.
Proof.
  unfold value_counts. rewrite sort_by_count_perm.
  change (map ?f ?l) with (f <$> l). rewrite list_elem_of_fmap. split.
  - intros (c & [= -> ->] & [Hna Hc]%unique_elem%dropna_elem).
    by rewrite occurrences_dropna.
  - intros (Hna & Hc & ->). exists x. rewrite occurrences_dropna by done.
    split; [done|]. by apply unique_elem, dropna_elem.
Qed.

Lemma value_counts_keys series :
  (value_counts series).*1 ≡ₚ unique (dropna series).
Proof.
  unfold value_counts. rewrite sort_by_count_perm.
  change (map ?f ?l) with (f <$> l). rewrite <- list_fmap_compose.
  by rewrite list_fmap_id.
Qed.

Lemma value_counts_NoDup series : NoDup (value_counts series).*1.
Proof. rewrite value_counts_keys. apply unique_NoDup. Qed.


Lemma resolve_truthy r headers cells c :
  resolve r (fetched headers cells) = Some c ->
  truthy (get_column_if_exists (fetched headers cells) (names_of r)
            (Some (column_map_of (columns (fetched headers cells))))) = Some c.
Proof.
  intros H. destruct (resolve_in _ _ _ _ H) as [_ Hn].
  unfold resolve in H. rewrite H. by apply (names_of_nonempty r).
Qed.


(** ** Company distribution *)



(** ** Writing and reading columns *)

Lemma nth_assign_same i v row : nth i (assign i v row) NaN = v.
Proof.
  rewrite nth_lookup. unfold assign. rewrite list_lookup_insert_eq; [done|].
  rewrite length_app, length_replicate. lia.
Qed.

Lemma nth_assign_other i j v row :
  i <> j -> nth j (assign i v row) NaN = nth j row NaN.
Proof.
  intros Hne. rewrite !nth_lookup. unfold assign.
  rewrite list_lookup_insert_ne by done.
  destruct (decide (j < length row)) as [Hlt|Hge].
  - by rewrite lookup_app_l.
  - rewrite lookup_app_r by lia. rewrite (lookup_ge_None_2 row j) by lia.
    destruct (replicate _ NaN !! _) as [x|] eqn:E; [|done].
    by apply lookup_replicate in E as [-> _].
Qed.

Lemma column_index_lookup cols c i :
  column_index cols c = Some i -> cols !! i = Some c.
Proof.
  revert i. induction cols as [|d cols IH]; intros i; simpl; [done|].
  destruct (decide (d = c)) as [->|Hne].
  - by intros [= <-].
  - destruct (column_index cols c) as [k|]; [|done].
    intros [= <-]. by apply IH.
Qed.

Lemma column_index_inj cols c c' i :
  column_index cols c = Some i -> column_index cols c' = Some i -> c = c'.
Proof.
  intros H H'. apply column_index_lookup in H, H'. congruence.
Qed.

Lemma view_assigned i j (frame : list (list cell)) (values : list cell) :
  i <> j -> length values = length frame ->
  map (view i j) (zip_with (fun row v => assign i v row) frame values) =
  zip values (map (fun row => nth j row NaN) frame).
Proof.
  intros Hne. revert values.
  induction frame as [|row frame IH]; intros [|v values] Hlen; try done.
  simpl. unfold view at 1. rewrite nth_assign_same, nth_assign_other by done.
  f_equal. apply IH. simpl in Hlen. lia.
Qed.

Lemma zip_views i j (frame : list (list cell)) :
  zip (map (fun row => nth i row NaN) frame) (map (fun row => nth j row NaN) frame) =
  map (view i j) frame.
Proof. induction frame as [|row frame IH]; [done|]. simpl. by rewrite IH. Qed.

Lemma filter_views i j (frame : list (list cell)) :
  map (view i j) (filter (fun row => isna (nth i row NaN) = false) frame) =
  filter (fun p => isna p.1 = false) (map (view i j) frame).
Proof.
  induction frame as [|row frame IH]; [done|].
  simpl. rewrite !filter_cons. simpl.
  destruct (decide (isna (nth i row NaN) = false)); simpl; by rewrite IH.
Qed.

(** ** Reordering rows *)

Lemma omap_lookup_cons_seq {A} (x : A) (l : list A) a n :
  omap (fun i => (x :: l) !! i) (seq (S a) n) = omap (fun i => l !! i) (seq a n).
Proof.
  revert a. induction n as [|n IH]; intros a; [done|].
  csimpl. by rewrite IH.
Qed.

Lemma omap_lookup_seq {A} (l : list A) :
  omap (fun i => l !! i) (seq 0 (length l)) = l.
Proof.
  induction l as [|x l IH]; [done|].
  csimpl. by rewrite omap_lookup_cons_seq, IH.
Qed.

Lemma omap_lookup_Permutation {A} (l : list A) (order : list nat) :
  order ≡ₚ seq 0 (length l) -> omap (fun i => l !! i) order ≡ₚ l.
Proof. intros ->. by rewrite omap_lookup_seq. Qed.

Lemma omap_lookup_map {A B} (f : A -> B) (l : list A) (order : list nat) :
  omap (fun i => map f l !! i) order = map f (omap (fun i => l !! i) order).
Proof.
  induction order as [|i order IH]; [done|]. csimpl.
  change (map f l) with (f <$> l) in *. rewrite list_lookup_fmap.
  destruct (l !! i); csimpl; by rewrite IH.
Qed.

(** ** The timeline loop *)

(** One point for each pair that has a status, in order. *)
Lemma timeline_loop_rows pairs counts :
  map row_of (timeline_loop pairs counts) =
  filter (fun ds => isna ds.2 = false) pairs.
Proof.
  revert counts. induction pairs as [|[d s] rest IH]; intros counts; [done|].
  simpl. rewrite filter_cons. simpl. destruct (isna s) eqn:E.
  - rewrite decide_False by done. apply IH.
  - rewrite decide_True by done. simpl. by rewrite IH.
Qed.

(** The count of a point is the count its status had before the loop plus
    the number of points with that status emitted so far, itself
    included. *)
Lemma timeline_loop_count pairs counts k p :
  timeline_loop pairs counts !! k = Some p ->
  Count p =
  default 0 (counts !! Status p) +
  length (filter (fun q => Status q = Status p)
            (take (S k) (timeline_loop pairs counts))).
Proof.
  revert counts k. induction pairs as [|[d s] rest IH]; intros counts k; [done|].
  simpl. destruct (isna s); [apply IH|].
  destruct k as [|k]; simpl.
  - intros [= <-]. simpl. rewrite take_0, filter_cons_True by done. simpl. lia.
  - intros Hp. rewrite (IH _ _ Hp). rewrite filter_cons. simpl.
    destruct (decide (s = Status p)) as [->|Hne].
    + rewrite lookup_insert_eq. simpl. lia.
    + by rewrite lookup_insert_ne.
Qed.

Lemma filter_take_grows {A} (P : A -> Prop) `{forall x, Decision (P x)}
    (l : list A) i j y :
  i < j -> l !! j = Some y -> P y ->
  length (filter P (take (S i) l)) < length (filter P (take (S j) l)).
Proof.
  revert i j. induction l as [|x l IH]; intros i j Hij Hy Py; [done|].
  destruct j as [|j]; [lia|]. simpl in Hy.
  destruct i as [|i].
  - simpl. rewrite take_0, !filter_cons, filter_nil.
    assert (0 < length (filter P (take (S j) l))).
    { assert (y ∈ filter P (take (S j) l)) as Hin.
      { apply list_elem_of_filter. split; [done|].
        apply elem_of_take. exists j. split; [done|lia]. }
      destruct (filter P (take (S j) l)); [by apply elem_of_nil in Hin|simpl; lia]. }
    destruct (decide (P x)); simpl; lia.
  - change (take (S (S i)) (x :: l)) with (x :: take (S i) l).
    change (take (S (S j)) (x :: l)) with (x :: take (S j) l).
    rewrite !filter_cons.
    assert (length (filter P (take (S i) l)) < length (filter P (take (S j) l)))
      by (apply (IH i j); [lia|done..]).
    destruct (decide (P x)); simpl; lia.
Qed.

Lemma StronglySorted_sublist {A} (R : relation A) l1 l2 :
  l1 `sublist_of` l2 -> StronglySorted R l2 -> StronglySorted R l1.
Proof.
  induction 1 as [|x l1 l2 Hsub IH|x l1 l2 Hsub IH]; intros Hs; [done| |].
  - apply StronglySorted_inv in Hs as [Hl2 Hx]. constructor; [auto|].
    apply Forall_forall. intros y Hy. rewrite Forall_forall in Hx.
    apply Hx. by eapply elem_of_sublist.
  - apply StronglySorted_inv in Hs as [Hl2 _]. auto.
Qed.

Lemma StronglySorted_lookup {A} (R : relation A) l i j x y :
  StronglySorted R l -> i < j -> l !! i = Some x -> l !! j = Some y -> R x y.
Proof.
  intros Hs. revert i j. induction Hs as [|z l Hl IH Hz]; intros i j Hij Hx Hy;
    [done|].
  destruct j as [|j]; [lia|]. simpl in Hy. destruct i as [|i]; simpl in Hx.
  - injection Hx as <-. rewrite Forall_forall in Hz. apply Hz.
    by eapply list_elem_of_lookup_2.
  - apply (IH i j); [lia|done..].
Qed.

(** ** Timeline *)

Section Timeline.
Context {pandas : Pandas}.

Lemma to_datetime_cells series c :
  c ∈ to_datetime series -> isna c = false -> exists t, c = Timestamp t.
Proof.
  unfold to_datetime. intros (i & x & -> & _)%elem_of_lookup_imap.
  destruct x; try done; [|eauto].
  destruct (infer_datetime series i); [eauto|done].
Qed.

Lemma length_to_datetime series : length (to_datetime series) = length series.
Proof. apply length_imap. Qed.

(** The chart computed from the positions [i] of the date column and [j]
    of the status column. *)
Lemma create_timeline_chart_resolved df cm date_col status_col i j :
  truthy (get_column_if_exists df DATE_NAMES (Some cm)) = Some date_col ->
  truthy (get_column_if_exists df STATUS_NAMES (Some cm)) = Some status_col ->
  column_index (columns df) date_col = Some i ->
  column_index (columns df) status_col = Some j ->
  let dates := map (fun row => nth i row NaN) (rows df) in
  let frame :=
    filter (fun row => isna (nth i row NaN) = false)
      (zip_with (fun row v => assign i v row) (rows df) (to_datetime dates)) in
  let sorted :=
    omap (fun k => frame !! k)
      (argsort (map instant (map (fun row => nth i row NaN) frame))) in
  let timeline_data := timeline_loop (map (view i j) sorted) ∅ in
  create_timeline_chart df cm =
  if decide (length frame = 0)
  then create_empty_figure "Timeline not available - no valid dates found"
  else match timeline_data with
       | [] => create_empty_figure "Timeline not available - no valid status data"
       | _ => LineFigure timeline_data
       end.
Proof.
  intros Hd Hs Hi Hj dates frame sorted timeline_data.
  unfold create_timeline_chart. rewrite Hd, Hs.
  rewrite (getitem_at _ _ _ Hi). simpl. fold dates.
  unfold dropna_subset, setitem. rewrite Hi. simpl. rewrite Hi. simpl.
  fold frame. unfold len. simpl.
  destruct (decide (length frame = 0)); [done|].
  unfold sort_values. erewrite getitem_at by exact Hi. simpl.
  fold sorted. erewrite !getitem_at by (first [exact Hi|exact Hj]). simpl.
  rewrite zip_views. fold timeline_data.
  by destruct timeline_data.
Qed.

End Timeline.

Lemma date_status_names_disjoint c :
  c ∈ names_of DateRole -> c ∈ names_of StatusRole -> False.
Proof.
  simpl. unfold DATE_NAMES, STATUS_NAMES. rewrite !elem_of_cons, !elem_of_nil.
  intros H H'. repeat (destruct H as [->|H]; [repeat (destruct H' as [H'|H']; [discriminate|]); done|]).
  done.
Qed.

Section TimelineClaim.
Context {pandas : Pandas}.

(** C5.  When the date and the status roles both resolve (the headers
    being distinct once normalized), the timeline is made as follows: the dates are parsed, the rows are put in ascending
    order of date, and there is exactly one point for each row that has a
    valid date and a status, none for any other row; the point carries the
    row's date and status and the number of points with this status
    emitted so far, itself included.  Hence within a status the counts
    grow as the dates ascend, and no row with an invalid date gives a
    point.  With no point the chart is a placeholder. *)
Theorem C5_timeline (headers : list string) (cells : list (list cell))
    (date_col status_col : string) :
  let df := fetched headers cells in
  let column_map := column_map_of (columns df) in
  NoDup (columns df) ->
  resolve DateRole df = Some date_col ->
  resolve StatusRole df = Some status_col ->
  exists dates statuses timeline_data,
    getitem df date_col = Ok dates /\
    getitem df status_col = Ok statuses /\
    (create_timeline_chart df column_map = LineFigure timeline_data \/
     timeline_data = [] /\
     exists message,
       create_timeline_chart df column_map = create_empty_figure message) /\
    map row_of timeline_data ≡ₚ
      filter (fun ds => isna ds.1 = false /\ isna ds.2 = false)
        (zip (to_datetime dates) statuses) /\
    StronglySorted Z.le (map (fun p => instant (Date p)) timeline_data) /\
    (forall k p, timeline_data !! k = Some p ->
       (exists t, Date p = Timestamp t) /\
       isna (Status p) = false /\
       Count p =
         length (filter (fun q => Status q = Status p)
                   (take (S k) timeline_data))) /\
    (forall i j p q,
       i < j -> timeline_data !! i = Some p -> timeline_data !! j = Some q ->
       Status p = Status q ->
       Count p < Count q /\ (instant (Date p) <= instant (Date q))%Z).
Proof.
  intros df column_map _ Hdate Hstatus.
  pose proof (resolve_truthy _ _ _ _ Hdate) as Hd.
  pose proof (resolve_truthy _ _ _ _ Hstatus) as Hs.
  change (names_of DateRole) with DATE_NAMES in Hd.
  change (names_of StatusRole) with STATUS_NAMES in Hs.
  destruct (resolve_in _ _ _ _ Hdate) as [Hdcol Hdname].
  destruct (resolve_in _ _ _ _ Hstatus) as [Hscol Hsname].
  destruct (column_index_elem _ _ Hdcol) as [i Hi].
  destruct (column_index_elem _ _ Hscol) as [j Hj].
  assert (i <> j) as Hij.
  { intros ->. pose proof (column_index_inj _ _ _ _ Hi Hj) as ->.
    by eapply date_status_names_disjoint. }
  pose proof (create_timeline_chart_resolved df column_map date_col status_col
                i j Hd Hs Hi Hj) as Hchart.
  cbv zeta in Hchart.
  set (dates := map (fun row => nth i row NaN) (rows df)) in *.
  set (statuses := map (fun row => nth j row NaN) (rows df)).
  set (frame := filter (fun row => isna (nth i row NaN) = false) _) in Hchart.
  set (sorted := omap (fun k => frame !! k) _) in Hchart.
  set (timeline_data := timeline_loop (map (view i j) sorted) ∅) in Hchart.
  assert (map (view i j) frame =
          filter (fun ds => isna ds.1 = false) (zip (to_datetime dates) statuses))
    as Hframe.
  { unfold frame. rewrite filter_views, view_assigned; [done..|].
    rewrite length_to_datetime. unfold dates. by rewrite length_map. }
  assert (sorted ≡ₚ frame) as Hperm.
  { apply omap_lookup_Permutation. rewrite argsort_perm.
    by rewrite !length_map. }
  assert (StronglySorted Z.le (map (fun ds => instant ds.1) (map (view i j) sorted)))
    as Hsorted.
  { apply Sorted_StronglySorted; [apply _|].
    pose proof (argsort_sorted
                  (map instant (map (fun row => nth i row NaN) frame))) as H.
    rewrite !omap_lookup_map in H. fold sorted in H.
    by rewrite !map_map in *. }
  assert (map row_of timeline_data =
          filter (fun ds => isna ds.2 = false) (map (view i j) sorted)) as Hrows
    by apply timeline_loop_rows.
  assert (map row_of timeline_data ≡ₚ
          filter (fun ds => isna ds.1 = false /\ isna ds.2 = false)
            (zip (to_datetime dates) statuses)) as Hpoints.
  { rewrite Hrows. change (map (view i j) sorted) with (view i j <$> sorted).
    rewrite Hperm. change (view i j <$> frame) with (map (view i j) frame).
    rewrite Hframe, list_filter_filter.
    rewrite (list_filter_iff _
               (fun ds => isna ds.1 = false /\ isna ds.2 = false)); [done|].
    intros ds. tauto. }
  assert (StronglySorted Z.le (map (fun p => instant (Date p)) timeline_data))
    as Hascending.
  { replace (map (fun p => instant (Date p)) timeline_data)
      with (map (fun ds => instant ds.1) (map row_of timeline_data))
      by by rewrite map_map.
    rewrite Hrows. eapply StronglySorted_sublist; [|exact Hsorted].
    apply fmap_sublist, sublist_filter. }
  assert (forall k p, timeline_data !! k = Some p ->
            Count p = length (filter (fun q => Status q = Status p)
                                (take (S k) timeline_data))) as Hcount.
  { intros k p Hp. unfold timeline_data in *.
    rewrite (timeline_loop_count _ _ _ _ Hp). by rewrite lookup_empty. }
  exists dates, statuses, timeline_data.
  split_and!.
  - by apply getitem_at.
  - by apply getitem_at.
  - rewrite Hchart. destruct (decide (length frame = 0)) as [Hempty|_].
    + right. split; [|eauto].
      apply length_zero_iff_nil in Hempty.
      rewrite Hempty in Hperm. apply Permutation_nil_r in Hperm.
      unfold timeline_data. by rewrite Hperm.
    + destruct timeline_data; [right; eauto|by left].
  - done.
  - done.
  - intros k p Hp.
    assert (row_of p ∈ map row_of timeline_data) as Hin.
    { change (map row_of timeline_data) with (row_of <$> timeline_data).
      apply list_elem_of_fmap. exists p. split; [done|].
      by eapply list_elem_of_lookup_2. }
    rewrite Hpoints in Hin.
    apply list_elem_of_filter in Hin as [[Hdna Hsna] Hzip]. simpl in *.
    split_and!; [|done|by apply Hcount].
    apply elem_of_zip_l in Hzip. by eapply to_datetime_cells.
  - intros a b p q Hab Hp Hq Hsame. split.
    + rewrite (Hcount _ _ Hp), (Hcount _ _ Hq), Hsame.
      by eapply filter_take_grows.
    + eapply (StronglySorted_lookup Z.le _ a b); [exact Hascending|done|..].
      * change (map ?f ?l) with (f <$> l). by rewrite list_lookup_fmap, Hp.
      * change (map ?f ?l) with (f <$> l). by rewrite list_lookup_fmap, Hq.
Qed.

End TimelineClaim.

(** C5 on a sheet of five rows: three points, in order of date, with the
    running count of the status "Applied". *)
Lemma C5_timeline_witness :
  create_timeline_chart (pandas := reference_pandas)
    (fetched timeline_headers timeline_rows)
    (column_map_of (columns (fetched timeline_headers timeline_rows))) =
  LineFigure
    [{| Date := Timestamp 20240101; Status := Str "Applied"; Count := 1 |};
     {| Date := Timestamp 20240105; Status := Str "Applied"; Count := 2 |};
     {| Date := Timestamp 20240109; Status := Str "Applied"; Count := 3 |}].
Proof.
  destruct (C5_timeline (pandas := reference_pandas) timeline_headers
              timeline_rows "date" "status" ltac:(compute_done) eq_refl eq_refl)
    as (dates & statuses & timeline_data & _ & _ & Hchart & _).
  destruct Hchart as [H|(_ & message & H)]; pose proof H as H';
    vm_compute in H'; [|discriminate H'].
  rewrite H. symmetry. exact H'.
Defined.

(** * Further properties of the code *)

(** ** Frames under assignment *)

Lemma length_getitem df c series :
  getitem df c = Ok series -> length series = len df.
Proof.
  unfold getitem. destruct (column_index (columns df) c); [|done].
  intros [= <-]. by rewrite length_map.
Qed.

Lemma getitem_Ok_index df c series :
  getitem df c = Ok series ->
  exists i, column_index (columns df) c = Some i /\
            series = map (fun row => nth i row NaN) (rows df).
Proof.
  unfold getitem. destruct (column_index (columns df) c) as [i|]; [|done].
  intros [= <-]. by exists i.
Qed.

Lemma getitem_absent df c :
  c ∉ columns df -> getitem df c = Raise (KeyError c).
Proof.
  intros Hc. unfold getitem.
  destruct (column_index (columns df) c) as [i|] eqn:Hi; [|done].
  apply column_index_lookup in Hi. destruct Hc. by eapply list_elem_of_lookup_2.
Qed.

Lemma setitem_shape df c i values :
  column_index (columns df) c = Some i ->
  length values = len df ->
  columns (setitem df c values) = columns df /\
  len (setitem df c values) = len df.
Proof.
  intros Hi Hlen. unfold setitem. rewrite Hi. simpl. split; [done|].
  unfold len in *. simpl. rewrite length_zip_with. lia.
Qed.

Lemma nth_zip_assign_same i (frame : list (list cell)) (values : list cell) :
  length values = length frame ->
  map (fun row => nth i row NaN)
    (zip_with (fun row v => assign i v row) frame values) = values.
Proof.
  revert values. induction frame as [|row frame IH]; intros [|v values] Hlen;
    simpl in *; try done.
  rewrite nth_assign_same. f_equal. apply IH. lia.
Qed.

Lemma nth_zip_assign_other i j (frame : list (list cell)) (values : list cell) :
  i <> j -> length values = length frame ->
  map (fun row => nth j row NaN)
    (zip_with (fun row v => assign i v row) frame values) =
  map (fun row => nth j row NaN) frame.
Proof.
  intros Hij. revert values.
  induction frame as [|row frame IH]; intros [|v values] Hlen;
    simpl in *; try done.
  rewrite nth_assign_other by done. f_equal. apply IH. lia.
Qed.

Lemma getitem_setitem_same df c i values :
  column_index (columns df) c = Some i ->
  length values = len df ->
  getitem (setitem df c values) c = Ok values.
Proof.
  intros Hi Hlen. unfold setitem. rewrite Hi.
  unfold getitem. simpl. rewrite Hi. f_equal. by apply nth_zip_assign_same.
Qed.

Lemma getitem_setitem_other df c i values c' :
  column_index (columns df) c = Some i ->
  length values = len df ->
  c' <> c ->
  getitem (setitem df c values) c' = getitem df c'.
Proof.
  intros Hi Hlen Hne. unfold setitem. rewrite Hi.
  unfold getitem. simpl.
  destruct (column_index (columns df) c') as [j|] eqn:Hj; [|done].
  f_equal. apply nth_zip_assign_other; [|done].
  intros ->. destruct Hne. by eapply column_index_inj.
Qed.

Lemma assign_assign i v row : assign i v (assign i v row) = assign i v row.
Proof.
  unfold assign.
  set (padded := (row ++ replicate (S i - length row) NaN)%list).
  assert (i < length padded).
  { unfold padded. rewrite length_app, length_replicate. lia. }
  rewrite length_insert.
  replace (S i - length padded) with 0 by lia. simpl. rewrite app_nil_r.
  apply list_insert_insert_eq.
Qed.

Lemma setitem_setitem df c values :
  setitem (setitem df c values) c values = setitem df c values.
Proof.
  unfold setitem.
  destruct (column_index (columns df) c) as [i|] eqn:Hi; simpl.
  - rewrite Hi. f_equal.
    generalize (rows df). intros frame. revert values.
    induction frame as [|row frame IH]; intros [|v values]; simpl; try done.
    by rewrite assign_assign, IH.
  - assert (column_index (columns df ++ [c]) c = Some (length (columns df))) as ->.
    { clear -Hi. induction (columns df) as [|a cols IH]; simpl in *.
      - by rewrite decide_True.
      - destruct (decide (a = c)); [done|].
        destruct (column_index cols c); [done|]. by rewrite IH. }
    f_equal.
    generalize (rows df). intros frame. revert values.
    induction frame as [|row frame IH]; intros [|v values]; simpl; try done.
    by rewrite assign_assign, IH.
Qed.

(** ** Rewriting the link columns *)

Lemma link_like_reformat col rest df :
  reformat_links (col :: rest) df =
  if link_like col
  then series ← getitem df col;
       reformat_links rest (setitem df col (map link_cell series))
  else reformat_links rest df.
Proof. reflexivity. Qed.

Lemma reformat_links_getitem cols df :
  NoDup cols ->
  (forall c, c ∈ cols -> c ∈ columns df) ->
  exists df',
    reformat_links cols df = Ok df' /\
    columns df' = columns df /\
    len df' = len df /\
    forall c,
      getitem df' c =
      if bool_decide (c ∈ cols) && link_like c
      then series ← getitem df c; Ok (map link_cell series)
      else getitem df c.
Proof.
  intros Hnd. revert df.
  induction Hnd as [|col rest Hnotin Hnd IH]; intros df Hsub.
  - by exists df.
  - rewrite link_like_reformat.
    destruct (link_like col) eqn:Hlink.
    + destruct (getitem_elem df col) as (series & Hget & Hlen).
      { apply Hsub. left. }
      rewrite Hget. simpl.
      destruct (getitem_Ok_index _ _ _ Hget) as (i & Hi & _).
      destruct (setitem_shape df col i (map link_cell series) Hi) as [Hcols Hrows].
      { by rewrite length_map. }
      destruct (IH (setitem df col (map link_cell series))) as (df' & Hre & Hc' & Hl' & Hg').
      { intros c Hc. rewrite Hcols. apply Hsub. by right. }
      exists df'. split_and!; [done|congruence|congruence|].
      intros c. rewrite Hg'.
      destruct (decide (c = col)) as [->|Hne].
      * rewrite (bool_decide_eq_false_2 (col ∈ rest)) by done.
        rewrite bool_decide_eq_true_2 by left. rewrite Hlink. simpl.
        rewrite (getitem_setitem_same _ _ i) by (by rewrite ?length_map).
        by rewrite Hget.
      * rewrite (getitem_setitem_other _ _ i) by (by rewrite ?length_map).
        destruct (decide (c ∈ rest)) as [Hin|Hin].
        -- rewrite !bool_decide_eq_true_2; [done|by right|done].
        -- rewrite !bool_decide_eq_false_2; [done| |done].
           intros [->|?]%elem_of_cons; done.
    + destruct (IH df) as (df' & Hre & Hc' & Hl' & Hg').
      { intros c Hc. apply Hsub. by right. }
      exists df'. split_and!; try done.
      intros c. rewrite Hg'.
      destruct (decide (c = col)) as [->|Hne].
      * rewrite (bool_decide_eq_false_2 (col ∈ rest)) by done.
        rewrite Hlink. by destruct (bool_decide _).
      * destruct (decide (c ∈ rest)) as [Hin|Hin].
        -- rewrite !bool_decide_eq_true_2; [done|by right|done].
        -- rewrite !bool_decide_eq_false_2; [done| |done].
           intros [->|?]%elem_of_cons; done.
Qed.

Lemma reformat_links_shape cols df :
  (forall c, c ∈ cols -> c ∈ columns df) ->
  exists df',
    reformat_links cols df = Ok df' /\
    columns df' = columns df /\
    len df' = len df /\
    forall c, link_like c = false -> getitem df' c = getitem df c.
Proof.
  revert df. induction cols as [|col rest IH]; intros df Hsub.
  - by exists df.
  - rewrite link_like_reformat.
    destruct (link_like col) eqn:Hlink.
    + destruct (getitem_elem df col) as (series & Hget & Hlen).
      { apply Hsub. left. }
      rewrite Hget. simpl.
      destruct (getitem_Ok_index _ _ _ Hget) as (i & Hi & _).
      destruct (setitem_shape df col i (map link_cell series) Hi) as [Hcols Hrows].
      { by rewrite length_map. }
      destruct (IH (setitem df col (map link_cell series))) as (df' & Hre & Hc' & Hl' & Hg').
      { intros c Hc. rewrite Hcols. apply Hsub. by right. }
      exists df'. split_and!; [done|congruence|congruence|].
      intros c Hc. rewrite Hg' by done.
      apply (getitem_setitem_other _ _ i); [done|by rewrite length_map|].
      intros ->. congruence.
    + destruct (IH df) as (df' & Hre & Hc' & Hl' & Hg').
      { intros c Hc. apply Hsub. by right. }
      by exists df'.
Qed.

(** ** The most recent date *)

Lemma series_max_None series :
  series_max series = None <-> forall t, Timestamp t ∉ series.
Proof.
  induction series as [|x series IH]; simpl.
  - split; [|done]. intros _ t. apply not_elem_of_nil.
  - destruct x; try (rewrite IH; split;
      [intros H t [?|?]%elem_of_cons; [done|by eapply H]
      |intros H t Hin; apply (H t); by right]).
    split.
    + by destruct (series_max series).
    + intros H. destruct (H t). left.
Qed.

Lemma series_max_Some series t :
  series_max series = Some t ->
  Timestamp t ∈ series /\ forall u, Timestamp u ∈ series -> (u <= t)%Z.
Proof.
  revert t. induction series as [|x series IH]; intros t; simpl; [done|].
  destruct x as [s| |t0|];
    try (intros [Hin Hmax]%IH; split;
         [by right|intros u [?|?]%elem_of_cons; [done|by apply Hmax]]).
  destruct (series_max series) as [u0|] eqn:Hrest.
  - intros [= <-]. destruct (IH u0 eq_refl) as [Hin Hmax]. split.
    + destruct (Z.max_spec t0 u0) as [[_ ->]|[_ ->]]; [by right|left].
    + intros u [[= ->]|Hu]%elem_of_cons; [lia|]. apply Hmax in Hu. lia.
  - intros [= <-]. split; [left|].
    intros u [[= ->]|Hu]%elem_of_cons; [lia|].
    by apply (proj1 (series_max_None series) Hrest) in Hu.
Qed.

Section Parsing.
Context {pandas : Pandas}.

Lemma to_datetime_idem series :
  to_datetime (to_datetime series) = to_datetime series.
Proof.
  apply list_eq. intros i. unfold to_datetime at 1.
  rewrite list_lookup_imap.
  destruct (to_datetime series !! i) as [x|] eqn:Hx; [simpl|done].
  assert (is_str x = false) as Hstr.
  { pose proof (to_datetime_no_text series) as Hall.
    rewrite Forall_forall in Hall. apply Hall. by eapply list_elem_of_lookup_2. }
  destruct x as [s| |t|]; try done.
  exfalso. unfold to_datetime in Hx. rewrite list_lookup_imap in Hx.
  destruct (series !! i) as [[]|]; simpl in Hx; try done.
  by destruct (infer_datetime series i).
Qed.

Lemma recent_activity_shape df cm :
  columns (snd (get_recent_activity df cm)) = columns df /\
  len (snd (get_recent_activity df cm)) = len df.
Proof.
  destruct (truthy (get_column_if_exists df DATE_NAMES (Some cm))) as [c|] eqn:Hc.
  - destruct (getitem df c) as [series|e] eqn:Hget.
    + rewrite (get_recent_activity_frame df cm c series Hc Hget).
      destruct (getitem_Ok_index _ _ _ Hget) as (i & Hi & _).
      apply (setitem_shape df c i); [done|].
      rewrite length_to_datetime. by eapply length_getitem.
    + unfold get_recent_activity. by rewrite Hc, Hget.
  - unfold get_recent_activity. by rewrite Hc.
Qed.

Lemma recent_activity_columns df cm c series :
  truthy (get_column_if_exists df DATE_NAMES (Some cm)) = Some c ->
  getitem df c = Ok series ->
  getitem (snd (get_recent_activity df cm)) c = Ok (to_datetime series) /\
  forall c', c' <> c ->
    getitem (snd (get_recent_activity df cm)) c' = getitem df c'.
Proof.
  intros Hc Hget.
  destruct (getitem_Ok_index _ _ _ Hget) as (i & Hi & _).
  assert (length (to_datetime series) = len df) as Hlen.
  { rewrite length_to_datetime. by eapply length_getitem. }
  rewrite (get_recent_activity_frame df cm c series Hc Hget). split.
  - by apply (getitem_setitem_same df c i).
  - intros c' Hne. by apply (getitem_setitem_other df c i).
Qed.

(** X4.  When the date role is bound to a column of the frame,
    [get_recent_activity] labels the most recent activity with the latest
    of the dates that parse, formatted; the rows whose date does not parse
    play no part.  When no date parses the label is "Date format error".
    The frame handed back differs from the one received in the date
    column only. *)
Theorem recent_activity_latest (df : DataFrame) (cm : gmap string string)
    (c : string) (series : list cell) :
  truthy (get_column_if_exists df DATE_NAMES (Some cm)) = Some c ->
  getitem df c = Ok series ->
  let parsed := to_datetime series in
  let after := snd (get_recent_activity df cm) in
  ((forall x, x ∈ parsed -> isna x = true) ->
     fst (get_recent_activity df cm) = "Date format error") /\
  (forall x, x ∈ parsed -> isna x = false ->
     exists t,
       fst (get_recent_activity df cm) = strftime t /\
       Timestamp t ∈ parsed /\
       forall u, Timestamp u ∈ parsed -> (u <= t)%Z) /\
  getitem after c = Ok parsed /\
  (forall c', c' <> c -> getitem after c' = getitem df c') /\
  columns after = columns df /\
  len after = len df.
Proof.
  intros Hc Hget parsed after.
  destruct (recent_activity_columns df cm c series Hc Hget) as [Hsame Hother].
  assert (fst (get_recent_activity df cm) =
          match series_max parsed with
          | None => "Date format error"
          | Some latest_date => strftime latest_date
          end) as Hlabel.
  { rewrite (get_recent_activity_frame df cm c series Hc Hget) in Hsame.
    subst parsed. unfold get_recent_activity. rewrite Hc, Hget, Hsame.
    simpl. by destruct (series_max _). }
  split_and!.
  - intros Hna. rewrite Hlabel.
    destruct (series_max parsed) as [t|] eqn:Hmax; [|done].
    apply series_max_Some in Hmax as [Hin _]. by apply Hna in Hin.
  - intros x Hx Hnotna. rewrite Hlabel.
    destruct (series_max parsed) as [t|] eqn:Hmax.
    + exists t. split; [done|]. by apply series_max_Some.
    + destruct (to_datetime_cells series x Hx Hnotna) as [t ->].
      by apply (proj1 (series_max_None parsed) Hmax) in Hx.
  - done.
  - done.
  - apply recent_activity_shape.
  - apply recent_activity_shape.
Qed.

(** X5.  The timeline drawn from the frame that [get_recent_activity]
    has written to is the timeline of the frame as it was before: parsing
    the dates a second time changes nothing. *)
Theorem timeline_unaffected_by_parsing (df : DataFrame)
    (cm : gmap string string) :
  create_timeline_chart (snd (get_recent_activity df cm)) cm =
  create_timeline_chart df cm.
Proof.
  destruct (truthy (get_column_if_exists df DATE_NAMES (Some cm))) as [c|] eqn:Hc;
    [|unfold get_recent_activity; by rewrite Hc].
  destruct (getitem df c) as [series|e] eqn:Hget;
    [|unfold get_recent_activity; by rewrite Hc, Hget].
  rewrite (get_recent_activity_frame df cm c series Hc Hget).
  destruct (getitem_Ok_index _ _ _ Hget) as (i & Hi & _).
  assert (length (to_datetime series) = len df) as Hlen.
  { rewrite length_to_datetime. by eapply length_getitem. }
  unfold create_timeline_chart, get_column_if_exists in *. rewrite Hc.
  destruct (truthy (first_known STATUS_NAMES cm)) as [status_col|]; [|done].
  rewrite (getitem_setitem_same df c i) by done.
  rewrite Hget. simpl.
  by rewrite to_datetime_idem, setitem_setitem.
Qed.

End Parsing.

(** X4 on the sheet of ["ada"]: of the dates "2024-01-01" and "next
    week" the first parses and labels the most recent activity. *)
Lemma recent_activity_latest_witness :
  fst (get_recent_activity (pandas := reference_pandas)
         (fetched (columns example_sheet) (rows example_sheet))
         (column_map_of (normalize_columns (columns example_sheet)))) =
  "Jan 01, 2024".
Proof.
  destruct (recent_activity_latest (pandas := reference_pandas)
              (fetched (columns example_sheet) (rows example_sheet))
              (column_map_of (normalize_columns (columns example_sheet)))
              "date" [Str "2024-01-01"; Str "next week"] eq_refl eq_refl)
    as (_ & Hlatest & _).
  destruct (Hlatest (Timestamp 20240101)) as (t & Hlabel & Hin & _).
  { vm_compute. left. }
  { reflexivity. }
  rewrite Hlabel. vm_compute in Hin.
  apply elem_of_cons in Hin as [Heq|Hin].
  - injection Heq as ->. reflexivity.
  - apply elem_of_cons in Hin as [Heq|Hin]; [discriminate Heq|].
    by apply elem_of_nil in Hin.
Defined.

(** ** What a built dashboard shows *)

Lemma count_status_le df pat cm n :
  count_status df pat cm = Ok n -> n <= len df.
Proof.
  unfold count_status.
  destruct (truthy (get_column_if_exists df STATUS_NAMES (Some cm))) as [c|];
    [|intros [= <-]; lia].
  destruct (getitem df c) as [series|e] eqn:Hget; [simpl|done].
  apply length_getitem in Hget.
  unfold str_lower, str_contains, str_accessor.
  destruct (holds_text series); [simpl|done].
  destruct (holds_text _); [simpl|done].
  intros [= <-]. unfold count_true.
  etransitivity; [apply length_filter|]. rewrite !length_map. lia.
Qed.



Section Built.
Context {pandas : Pandas}.

(** The steps of a build that succeeds. *)
Lemma dashboard_of_Ok w df cm shown :
  dashboard_of w df cm = Ok shown ->
  exists links rate approved_count interview_count pie bars options parsed,
    parsed = snd (get_recent_activity links cm) /\
    reformat_links (columns df) df = Ok links /\
    calculate_success_rate links cm = Ok rate /\
    count_status parsed "approved|offer|accepted" cm = Ok approved_count /\
    count_status parsed "interview" cm = Ok interview_count /\
    create_status_pie parsed cm = Ok pie /\
    create_company_distribution parsed cm = Ok bars /\
    match truthy (get_column_if_exists parsed STATUS_NAMES (Some cm)) with
    | Some status_col =>
        series ← getitem parsed status_col; Ok (unique (dropna series))
    | None => Ok []
    end = Ok options /\
    shown =
    Dashboard
      {| last_refreshed := now w;
         total_applications := len links;
         interviews := interview_count;
         approved := approved_count;
         success_rate := rate;
         status_pie := pie;
         timeline_chart := create_timeline_chart parsed cm;
         company_chart := bars;
         status_options := options;
         table_columns :=
           map (fun col => (col, Py.contains "link" (Py.lower col))) (columns parsed);
         table_data := to_dict_records parsed;
         highlight_column :=
           truthy (get_column_if_exists parsed STATUS_NAMES (Some cm)) |}.
Proof.
  unfold dashboard_of.
  destruct (reformat_links (columns df) df) as [links|e] eqn:H1; [simpl|done].
  destruct (calculate_success_rate links cm) as [rate|e] eqn:H2; [simpl|done].
  destruct (get_recent_activity links cm) as [recent parsed] eqn:H3. simpl.
  destruct (count_status parsed "approved|offer|accepted" cm) as [a|e] eqn:H4;
    [simpl|done].
  destruct (count_status parsed "interview" cm) as [i|e] eqn:H5; [simpl|done].
  destruct (count_status parsed "rejected|declined" cm) as [r|e]; [simpl|done].
  destruct (create_status_pie parsed cm) as [pie|e] eqn:H6; [simpl|done].
  destruct (create_company_distribution parsed cm) as [bars|e] eqn:H7; [simpl|done].
  destruct (match truthy (get_column_if_exists parsed STATUS_NAMES (Some cm)) with
            | Some status_col => _
            | None => _
            end) as [options|e] eqn:H8; [simpl|done].
  intros [= <-]. exists links, rate, a, i, pie, bars, options, parsed.
  rewrite H3. simpl. by split_and!.
Qed.


(** X2.  The Interviews and Approved counters of a dashboard never exceed
    its total. *)
Theorem dashboard_counters_bounded (w : World) (df : DataFrame)
    (cm : gmap string string) (content : Content) :
  dashboard_of w df cm = Ok (Dashboard content) ->
  interviews content <= total_applications content /\
  approved content <= total_applications content.
Proof.
  intros (links & rate & a & i & pie & bars & options & parsed & Hparsed & _ & _ & Ha
          & Hi & _ & _ & _ & [= ->])%dashboard_of_Ok.
  destruct (recent_activity_shape links cm) as [_ Hrows].
  rewrite <- Hparsed in Hrows.
  apply count_status_le in Ha, Hi. simpl. lia.
Qed.

(** X3.  The table of a dashboard passes the sheet through (the headers
    being distinct): a column whose name contains "link", "job page" or
    "resume" shows "[link](...)" for a value and the empty text for a blank
    or missing one; the column bound to the date role, when it is not such
    a column, shows the parsed dates; every other column shows the cells of
    the sheet as they are. *)
Theorem table_passthrough (w : World) (df : DataFrame)
    (cm : gmap string string) (content : Content) :
  NoDup (columns df) ->
  dashboard_of w df cm = Ok (Dashboard content) ->
  exists table,
    table_data content = to_dict_records table /\
    columns table = columns df /\
    forall c series,
      getitem df c = Ok series ->
      getitem table c =
      Ok (if bool_decide
               (truthy (get_column_if_exists df DATE_NAMES (Some cm)) = Some c)
          then to_datetime (if link_like c then map link_cell series else series)
          else if link_like c then map link_cell series else series).
Proof.
  intros Hnd (links & rate & a & i & pie & bars & options & parsed & Hparsed & Hlinks & _
              & _ & _ & _ & _ & _ & [= ->])%dashboard_of_Ok.
  destruct (reformat_links_getitem (columns df) df Hnd) as (links' & Hre & Hcols & Hrows & Hcell);
    [done|].
  rewrite Hlinks in Hre. injection Hre as <-.
  destruct (recent_activity_shape links cm) as [Hcols' Hrows'].
  rewrite <- Hparsed in Hcols', Hrows'.
  exists parsed. simpl. split_and!; [done|congruence|].
  intros c series Hget.
  assert (getitem links c =
          Ok (if link_like c then map link_cell series else series)) as Hlink.
  { rewrite Hcell, Hget.
    destruct (getitem_Ok_index _ _ _ Hget) as (k & Hk & _).
    apply column_index_lookup, list_elem_of_lookup_2 in Hk.
    rewrite bool_decide_eq_true_2 by done. simpl. by destruct (link_like c). }
  unfold get_column_if_exists in *.
  destruct (truthy (first_known DATE_NAMES cm)) as [date_col|] eqn:Hdate.
  - destruct (getitem links date_col) as [dates|e] eqn:Hdates.
    + destruct (recent_activity_columns links cm date_col dates Hdate Hdates)
        as (Hsame & Hother).
      rewrite <- Hparsed in Hsame, Hother.
      destruct (decide (date_col = c)) as [->|Hne].
      * rewrite bool_decide_eq_true_2 by done. rewrite Hsame. congruence.
      * rewrite bool_decide_eq_false_2 by congruence.
        rewrite Hother by done. done.
    + assert (parsed = links) as ->.
      { rewrite Hparsed. unfold get_recent_activity, get_column_if_exists.
        by rewrite Hdate, Hdates. }
      rewrite bool_decide_eq_false_2; [done|]. intros [= ->]. congruence.
  - assert (parsed = links) as ->.
    { rewrite Hparsed. unfold get_recent_activity, get_column_if_exists.
      by rewrite Hdate. }
    by rewrite bool_decide_eq_false_2.
Qed.

End Built.

(** ** The status pie and the status filter *)

Lemma occurrences_cons (c x : cell) l :
  occurrences c (x :: l) = (if decide (x = c) then 1 else 0) + occurrences c l.
Proof.
  unfold occurrences. rewrite filter_cons. by destruct (decide (x = c)).
Qed.

Lemma sum_occurrences_cons (u : list cell) x l :
  NoDup u ->
  sum_list_with (fun c => occurrences c (x :: l)) u =
  (if decide (x ∈ u) then 1 else 0) + sum_list_with (fun c => occurrences c l) u.
Proof.
  induction 1 as [|a u Hnotin Hnd IH].
  - destruct (decide (x ∈ [])) as [Hin|_]; [by apply elem_of_nil in Hin|done].
  - cbn [sum_list_with]. rewrite IH, occurrences_cons.
    destruct (decide (x = a)) as [->|Hne].
    + rewrite (decide_False (P := a ∈ u)) by done.
      rewrite decide_True by left. lia.
    + destruct (decide (x ∈ u)) as [Hin|Hin].
      * rewrite decide_True by (by right). lia.
      * rewrite decide_False; [lia|]. by intros [?|?]%elem_of_cons.
Qed.

Lemma sum_occurrences (u l : list cell) :
  NoDup u -> (forall x, x ∈ l -> x ∈ u) ->
  sum_list_with (fun c => occurrences c l) u = length l.
Proof.
  intros Hnd. induction l as [|x l IH]; intros Hsub.
  - clear. induction u as [|a u IH]; simpl; [done|]. by rewrite IH.
  - rewrite sum_occurrences_cons by done.
    rewrite decide_True by (apply Hsub; left).
    rewrite IH; [done|]. intros y Hy. apply Hsub. by right.
Qed.

Lemma sum_value_counts series :
  sum_list_with snd (value_counts series) = length (dropna series).
Proof.
  unfold value_counts. rewrite sort_by_count_perm.
  set (present := dropna series).
  transitivity (sum_list_with (fun c => occurrences c present) (unique present)).
  - generalize (unique present). intros u.
    induction u as [|a u IH]; simpl; [done|]. by rewrite IH.
  - apply sum_occurrences; [apply unique_NoDup|].
    intros x Hx. by apply unique_elem.
Qed.

Lemma value_counts_nil series :
  value_counts series = [] <-> forall x, x ∈ series -> isna x = true.
Proof.
  split.
  - intros Hnil x Hx. destruct (isna x) eqn:Hna; [done|].
    assert ((x, occurrences x series) ∈ value_counts series) as Hin.
    { by apply value_counts_elem. }
    rewrite Hnil in Hin. by apply elem_of_nil in Hin.
  - intros Hall. destruct (value_counts series) as [|[x n] rest] eqn:Hvc; [done|].
    assert ((x, n) ∈ value_counts series) as Hin by (rewrite Hvc; left).
    apply value_counts_elem in Hin as (Hna & Hx & _).
    apply Hall in Hx. congruence.
Qed.

(** X6.  When the status role is bound to a column of the frame, the pie
    has one slice for each distinct status text as it is written (no
    folding of case, no classification), sized by the number of rows that
    hold it, largest first; the sizes add up to the number of rows that
    have a status.  When no row has a status the pie is the placeholder
    "No status data available". *)
Theorem status_pie_slices (df : DataFrame) (cm : gmap string string)
    (c : string) (series : list cell) :
  truthy (get_column_if_exists df STATUS_NAMES (Some cm)) = Some c ->
  getitem df c = Ok series ->
  ((forall x, x ∈ series -> isna x = true) ->
     create_status_pie df cm =
     Ok (create_empty_figure "No status data available")) /\
  (forall x0, x0 ∈ series -> isna x0 = false ->
     exists slices,
       create_status_pie df cm = Ok (PieFigure slices) /\
       NoDup slices.*1 /\
       (forall x n, (x, n) ∈ slices <->
          isna x = false /\ x ∈ series /\ n = occurrences x series) /\
       StronglySorted by_count slices /\
       sum_list_with snd slices = length (dropna series)).
Proof.
  intros Hc Hget. unfold create_status_pie. rewrite Hc, Hget. simpl. split.
  - intros Hall%value_counts_nil. by rewrite Hall.
  - intros x0 Hx0 Hna.
    destruct (decide (length (value_counts series) = 0)) as [Hnil|_].
    + apply length_zero_iff_nil in Hnil.
      rewrite value_counts_nil in Hnil. apply Hnil in Hx0. congruence.
    + exists (value_counts series). split_and!.
      * done.
      * apply value_counts_NoDup.
      * intros x n. apply value_counts_elem.
      * apply sort_by_count_sorted.
      * apply sum_value_counts.
Qed.

(** X6 on the sheet of the specification's example: two statuses, one
    row each. *)
Lemma status_pie_slices_witness :
  exists slices,
    create_status_pie (fetched example_headers example_rows)
      (column_map_of (columns (fetched example_headers example_rows))) =
    Ok (PieFigure slices) /\
    sum_list_with snd slices = 2.
Proof.
  destruct (status_pie_slices (fetched example_headers example_rows)
              (column_map_of (columns (fetched example_headers example_rows)))
              "status" [Str "Approved"; Str "Applied"] eq_refl eq_refl)
    as [_ Hslices].
  destruct (Hslices (Str "Approved")) as (slices & Hpie & _ & _ & _ & Hsum).
  { left. }
  { reflexivity. }
  exists slices. split; [exact Hpie|exact Hsum].
Defined.

Section StatusViews.
Context {pandas : Pandas}.

(** X7.  On every dashboard the status pie, the options of the status
    filter and the column used to highlight rows go together: without a
    bound status column the pie is a placeholder, the filter has no
    option and no column is highlighted; with one, the options are the
    labels of the slices, each distinct status once. *)
Theorem status_views_agree (w : World) (df : DataFrame)
    (cm : gmap string string) (content : Content) :
  dashboard_of w df cm = Ok (Dashboard content) ->
  NoDup (status_options content) /\
  match highlight_column content with
  | None =>
      status_pie content =
        create_empty_figure
          "Status distribution not available - no status column found" /\
      status_options content = []
  | Some _ =>
      match status_pie content with
      | PieFigure slices => slices.*1 ≡ₚ status_options content
      | EmptyFigure message =>
          message = "No status data available" /\ status_options content = []
      | _ => False
      end
  end.
Proof.
  intros (links & rate & a & i & pie & bars & options & parsed & Hparsed & _ & _
          & _ & _ & Hpie & _ & Hoptions & [= ->])%dashboard_of_Ok.
  simpl. unfold create_status_pie in Hpie.
  destruct (truthy (get_column_if_exists parsed STATUS_NAMES (Some cm)))
    as [status_col|].
  - destruct (getitem parsed status_col) as [series|e]; [simpl in *|done].
    injection Hoptions as <-. split; [apply unique_NoDup|].
    destruct (decide (length (value_counts series) = 0)) as [Hnil|Hsome];
      injection Hpie as <-.
    + split; [done|].
      apply length_zero_iff_nil in Hnil.
      apply Permutation_nil_r. rewrite <- value_counts_keys. by rewrite Hnil.
    + apply value_counts_keys.
  - injection Hpie as <-. injection Hoptions as <-. split; [apply NoDup_nil_2|done].
Qed.

End StatusViews.

(** ** Builds that end in an error *)

Lemma status_names_not_link_like c : c ∈ STATUS_NAMES -> link_like c = false.
Proof.
  unfold STATUS_NAMES. rewrite !elem_of_cons, elem_of_nil.
  intros [->|[->|[->|[]]]]; reflexivity.
Qed.

Section Failures.
Context {pandas : Pandas}.

(** X8.  A sheet that has rows and a status column without any text
    (every status missing) is not shown: the [.str] accessor is refused on
    such a column, the build raises [AttributeError] and the dashboard of
    [app.py] is replaced by the error message. *)
Theorem status_without_text_error (w : World) (sheet_url csv_url : string)
    (sheet : DataFrame) (c : string) (series : list cell) :
  let df := fetched (columns sheet) (rows sheet) in
  csv_url_of sheet_url = Ok csv_url ->
  read_csv w csv_url = Ok sheet ->
  resolve StatusRole df = Some c ->
  getitem df c = Ok series ->
  series <> [] ->
  holds_text series = false ->
  dashboard_of w df (column_map_of (columns df)) = Raise AttributeError /\
  App.build_dashboard_content w sheet_url = ErrorDiv sheet_url AttributeError.
Proof.
  intros df Hurl Hread Hresolve Hget Hrows Htext.
  assert (dashboard_of w df (column_map_of (columns df)) = Raise AttributeError)
    as Hfail.
  { pose proof (resolve_status_truthy _ _ _ Hresolve) as Hc.
    destruct (resolve_in _ _ _ _ Hresolve) as [_ Hname].
    destruct (reformat_links_shape (columns df) df)
      as (links & Hlinks & Hcols & Hlen & Hsame); [done|].
    change (truthy (get_column_if_exists links STATUS_NAMES
                      (Some (column_map_of (columns df)))) = Some c) in Hc.
    generalize dependent (column_map_of (columns df)). intros cm Hc.
    assert (len links <> 0) as Hsome.
    { rewrite Hlen. apply length_getitem in Hget. rewrite <- Hget.
      by destruct series. }
    assert (getitem links c = Ok series) as Hget'.
    { rewrite Hsame; [done|]. by apply status_names_not_link_like. }
    destruct (status_without_text links cm c series Hc Hsome Hget' Htext)
      as [Hrate _].
    unfold dashboard_of. rewrite Hlinks. simpl. by rewrite Hrate. }
  split; [done|].
  unfold App.build_dashboard_content. rewrite Hurl. simpl. rewrite Hread.
  change (try_except (dashboard_of w df (column_map_of (columns df)))
            (ErrorDiv sheet_url) = ErrorDiv sheet_url AttributeError).
  by rewrite Hfail.
Qed.

(** X9.  In [main7.py] the column map saved when the dashboard was
    created is trusted: when it binds the status role to a header that
    the sheet no longer has, the refresh does not fall back to "N/A" but
    ends with the error [KeyError] of that header. *)
Theorem stale_status_column (w : World) (username csv_url : string)
    (sheet : DataFrame) (pairs : list (string * string)) (c : string) :
  requested_url w username = Ok csv_url ->
  read_csv w csv_url = Ok sheet ->
  read_column_info w ("dashboard_columns_" +:+ username +:+ ".csv") = Ok pairs ->
  truthy (first_known STATUS_NAMES (column_map_of_pairs pairs)) = Some c ->
  c ∉ normalize_columns (columns sheet) ->
  build_dashboard_content w username = ErrorDiv username (KeyError c).
Proof.
  intros Hurl Hread Hpairs Hc Hnotin.
  rewrite build_cases, Hurl, Hread. cbv zeta.
  set (df := fetched (columns sheet) (rows sheet)).
  assert (load_column_map w username df = column_map_of_pairs pairs) as ->.
  { unfold load_column_map. by rewrite Hpairs. }
  set (cm := column_map_of_pairs pairs) in *.
  destruct (reformat_links_shape (columns df) df)
    as (links & Hlinks & Hcols & Hlen & _); [done|].
  assert (forall frame pat, columns frame = columns df ->
            count_status frame pat cm = Raise (KeyError c)) as Hcount.
  { intros frame pat Hframe. unfold count_status, get_column_if_exists.
    rewrite Hc. rewrite getitem_absent; [done|]. by rewrite Hframe. }
  unfold dashboard_of. rewrite Hlinks. simpl.
  destruct (calculate_success_rate links cm) as [rate|e] eqn:Hrate.
  - simpl. pose proof (recent_activity_shape links cm) as [Hcols' _].
    destruct (get_recent_activity links cm) as [recent parsed].
    cbn [snd] in Hcols'. rewrite (Hcount parsed "approved|offer|accepted") by congruence.
    reflexivity.
  - unfold calculate_success_rate, get_column_if_exists in Hrate.
    rewrite Hc in Hrate. destruct (decide (len links = 0)); [done|].
    rewrite getitem_absent in Hrate by (by rewrite Hcols).
    simpl in Hrate. by injection Hrate as <-.
Qed.

(** X10.  The two variants show the same thing: when [main7.py] finds no
    column file, its dashboard for a user is the dashboard of [app.py] for
    the reference saved for that user, and an error of one is the error of
    the other. *)
Theorem variants_agree (w : World) (username text : string) (e : exn) :
  open_read w ("dashboard_sheeturl_" +:+ username +:+ ".txt") = Ok text ->
  read_column_info w ("dashboard_columns_" +:+ username +:+ ".csv") = Raise e ->
  same_view (build_dashboard_content w username)
    (App.build_dashboard_content w (Py.strip text)).
Proof.
  intros Htext Hinfo.
  unfold build_dashboard_content, App.build_dashboard_content.
  rewrite Htext. simpl.
  destruct (csv_url_of (Py.strip text)) as [csv_url|e1]; [simpl|done].
  destruct (read_csv w csv_url) as [sheet|e2]; [simpl|done].
  unfold load_column_map. rewrite Hinfo. simpl.
  by destruct (dashboard_of w _ _) as [[content|who e3]|e3].
Qed.

End Failures.

(** X8 on a sheet with two applications and an empty status column. *)
Lemma status_without_text_error_witness :
  App.build_dashboard_content (pandas := reference_pandas)
    (sample_world example_reference (Ok blank_status_sheet)) example_reference =
  ErrorDiv example_reference AttributeError.
Proof.
  destruct (status_without_text_error (pandas := reference_pandas)
              (sample_world example_reference (Ok blank_status_sheet))
              example_reference
              "https://docs.google.com/spreadsheets/d/abc123/export?format=csv"
              blank_status_sheet "status" [NaN; NaN]
              eq_refl eq_refl eq_refl eq_refl) as [_ Hshown].
  - discriminate.
  - reflexivity.
  - exact Hshown.
Defined.

(** X9 for a user whose saved column map names a status column and whose
    sheet has lost it. *)
Lemma stale_status_column_witness :
  build_dashboard_content (pandas := reference_pandas)
    (with_column_info
       (sample_world example_reference
          (Ok {| columns := ["Company"]; rows := [[Str "Acme"]] |}))
       [("company", "company"); ("status", "status")]) "ada" =
  ErrorDiv "ada" (KeyError "status").
Proof.
  apply (stale_status_column (pandas := reference_pandas) _ "ada"
           "https://docs.google.com/spreadsheets/d/abc123/export?format=csv"
           {| columns := ["Company"]; rows := [[Str "Acme"]] |}
           [("company", "company"); ("status", "status")] "status");
    try reflexivity.
  vm_compute. intros Hin.
  apply elem_of_cons in Hin as [Heq|Hin]; [discriminate Heq|].
  by apply elem_of_nil in Hin.
Defined.

(** X10 on the world of ["ada"]. *)
Lemma variants_agree_witness :
  same_view
    (build_dashboard_content (pandas := reference_pandas) sheet_served "ada")
    (App.build_dashboard_content (pandas := reference_pandas) sheet_served
       (Py.strip example_reference)).
Proof.
  apply (variants_agree (pandas := reference_pandas) sheet_served "ada"
           example_reference (FileNotFoundError "dashboard_columns_ada.csv"));
    reflexivity.
Defined.

(** ** Creating a dashboard, then opening it *)

Lemma column_map_of_pairs_acc cols (m : gmap string string) :
  (forall c, c ∈ cols -> Py.lower c = c) ->
  foldl (fun m kv => <[fst kv := snd kv]> m) m (map (fun col => (col, col)) cols) =
  foldl (fun m col => <[Py.lower col := col]> m) m cols.
Proof.
  revert m. induction cols as [|c cols IH]; intros m Hlower; simpl; [done|].
  rewrite (Hlower c) by left. apply IH. intros d Hd. apply Hlower. by right.
Qed.

(** The column file written at creation holds the column map of the
    headers. *)
Lemma column_map_of_pairs_saved headers :
  column_map_of_pairs
    (map (fun col => (col, col)) (normalize_columns headers)) =
  column_map_of (normalize_columns headers).
Proof.
  apply column_map_of_pairs_acc. intros c Hc.
  by eapply normalize_columns_lower.
Qed.

Lemma create_user_dashboard_inv w n username sheet_url info saved data href :
  create_user_dashboard w n (Some username) (Some sheet_url) =
    DashboardCreated info saved data href ->
  username <> "" /\ sheet_url <> "" /\
  saved = sheet_url /\ href = "/dashboard/" +:+ username /\
  exists csv_url sheet,
    csv_url_of sheet_url = Ok csv_url /\
    read_csv w csv_url = Ok sheet /\
    info = map (fun col => (col, col)) (normalize_columns (columns sheet)) /\
    reformat_links (normalize_columns (columns sheet))
      (fetched (columns sheet) (rows sheet)) = Ok data.
Proof.
  unfold create_user_dashboard.
  destruct username as [|a username]; [done|].
  destruct sheet_url as [|b sheet_url]; [done|].
  cbn [truthy].
  destruct (csv_url_of (String b sheet_url)) as [csv_url|e]; [simpl|done].
  destruct (read_csv w csv_url) as [sheet|e] eqn:Hread; [simpl|done].
  destruct (reformat_links _ _) as [df|e] eqn:Hlinks; [simpl|done].
  intros [= <- <- <- <-]. split_and!; try done.
  by exists csv_url, sheet.
Qed.

Section Creation.
Context {pandas : Pandas}.

(** X11.  A dashboard created in [main7.py] and refreshed: the link leads
    to [/dashboard/<username>], the reference saved is the one typed, the
    data saved has the headers and the row count of the sheet, and the
    column map read back from the column file is the map of the headers
    fetched at creation.  A refresh that reads these two files (the
    reference having no blank around it) fetches the same endpoint and,
    as long as the sheet keeps its headers, builds with the very map that
    the headers give. *)
Theorem creation_then_refresh (w after : World) (n_clicks : nat)
    (username sheet_url : string) (info : list (string * string))
    (saved : string) (data : DataFrame) (href : string) :
  create_user_dashboard w n_clicks (Some username) (Some sheet_url) =
    DashboardCreated info saved data href ->
  open_read after ("dashboard_sheeturl_" +:+ username +:+ ".txt") = Ok saved ->
  read_column_info after ("dashboard_columns_" +:+ username +:+ ".csv") = Ok info ->
  Py.strip sheet_url = sheet_url ->
  href = "/dashboard/" +:+ username /\
  saved = sheet_url /\
  exists csv_url sheet,
    read_csv w csv_url = Ok sheet /\
    columns data = normalize_columns (columns sheet) /\
    len data = len sheet /\
    column_map_of_pairs info = column_map_of (normalize_columns (columns sheet)) /\
    requested_url after username = Ok csv_url /\
    forall sheet',
      read_csv after csv_url = Ok sheet' ->
      normalize_columns (columns sheet') = normalize_columns (columns sheet) ->
      let df := fetched (columns sheet') (rows sheet') in
      build_dashboard_content after username =
      try_except (dashboard_of after df (column_map_of (columns df)))
        (ErrorDiv username).
Proof.
  intros (_ & _ & -> & -> & csv_url & sheet & Hurl & Hread & -> & Hdata)
    %create_user_dashboard_inv Hopen Hinfo Hstrip.
  split; [done|]. split; [done|]. exists csv_url, sheet.
  destruct (reformat_links_shape (normalize_columns (columns sheet))
              (fetched (columns sheet) (rows sheet)))
    as (data' & Hdata' & Hcols & Hlen & _); [done|].
  rewrite Hdata in Hdata'. injection Hdata' as <-.
  assert (requested_url after username = Ok csv_url) as Hrequested.
  { unfold requested_url. rewrite Hopen. simpl. by rewrite Hstrip. }
  split_and!; try done.
  - apply column_map_of_pairs_saved.
  - intros sheet' Hread' Hsame df.
    rewrite build_cases, Hrequested, Hread'. cbv zeta. fold df.
    unfold load_column_map. rewrite Hinfo. simpl.
    rewrite column_map_of_pairs_saved. by rewrite <- Hsame.
Qed.


(** X13.  Routing in [app.py]: the link handed out at creation is ["/"]
    followed by the reference, and the page it opens is the dashboard of
    this very reference; no path is ever "not found". *)
Theorem app_link_routes (w after : World) (n_clicks : nat)
    (username sheet_url : string) (info : list (string * string))
    (saved : string) (data : DataFrame) (href : string) :
  AppPages.create_user_dashboard w n_clicks (Some username) (Some sheet_url) =
    DashboardCreated info saved data href ->
  AppPages.display_page after (Some href) =
    DashboardLayout (AppPages.dashboard_layout after sheet_url) /\
  forall pathname, AppPages.display_page after pathname <> PageNotFound.
Proof.
  intros Hcreated. split.
  - unfold AppPages.create_user_dashboard in Hcreated.
    destruct username as [|a username]; [done|].
    destruct sheet_url as [|b sheet_url]; [done|].
    cbn [truthy] in Hcreated.
    destruct (csv_url_of (String b sheet_url)) as [csv_url|e]; [simpl in *|done].
    destruct (read_csv w csv_url) as [sheet|e]; [simpl in *|done].
    destruct (reformat_links _ _) as [df|e]; [simpl in *|done].
    by injection Hcreated as <- <- <- <-.
  - intros [pathname|]; [|done]. unfold AppPages.display_page.
    destruct (truthy (Some pathname)); [|done]. by destruct (decide _).
Qed.

End Creation.

(** X11 for ["ada"], who creates a dashboard for the sample sheet and
    comes back to it. *)
Lemma creation_then_refresh_witness :
  exists content,
    build_dashboard_content (pandas := reference_pandas)
      (with_column_info sheet_served
         [("company", "company"); ("status", "status"); ("date", "date")])
      "ada" = Dashboard content.
Proof.
  destruct (reformat_links_shape (normalize_columns (columns example_sheet))
              (fetched (columns example_sheet) (rows example_sheet)))
    as (data & Hdata & _); [done|].
  destruct (creation_then_refresh (pandas := reference_pandas) sheet_served
              (with_column_info sheet_served
                 [("company", "company"); ("status", "status"); ("date", "date")])
              1 "ada" example_reference
              [("company", "company"); ("status", "status"); ("date", "date")]
              example_reference data "/dashboard/ada")
    as (_ & _ & csv_url & sheet & Hread & _ & _ & _ & Hurl & Hbuild).
  - unfold create_user_dashboard. cbn [truthy example_reference].
    change (csv_url_of example_reference) with
      (Ok "https://docs.google.com/spreadsheets/d/abc123/export?format=csv"
         : result string).
    cbn [mbind result_bind sheet_served sample_world read_csv].
    change (reformat_links _ _) with
      (reformat_links (normalize_columns (columns example_sheet))
         (fetched (columns example_sheet) (rows example_sheet))).
    by rewrite Hdata.
  - reflexivity.
  - reflexivity.
  - reflexivity.
  - injection Hurl as <-. injection Hread as <-.
    rewrite (Hbuild example_sheet eq_refl eq_refl).
    eexists. vm_compute. reflexivity.
Defined.


(** ** The identifier of a reference *)

Lemma split_go_rest c sep s :
  exists q,
    s = fst (Py.split_go (String c sep) 0 s) +:+ q /\
    (q = "" \/ Py.startswith (String c sep) q = true).
Proof.
  induction s as [|a s IH].
  - exists "". split; [done|by left].
  - cbn [Py.split_go].
    destruct (Py.startswith (String c sep) (String a s)) eqn:Hstart.
    + exists (String a s). split; [done|by right].
    + destruct IH as (q & Hq & Hrest).
      destruct (Py.split_go (String c sep) 0 s) as [piece others].
      exists q. split; [|done]. simpl in *. rewrite append_cons. by f_equal.
Qed.

Lemma split_go_piece_clear c s :
  Py.find (String c "") (fst (Py.split_go (String c "") 0 s)) = None.
Proof.
  induction s as [|a s IH]; [done|].
  cbn [Py.split_go].
  destruct (Py.startswith (String c "") (String a s)) eqn:Hstart; [done|].
  destruct (Py.split_go (String c "") 0 s) as [piece others].
  simpl in *. destruct (ascii_dec c a); [done|]. by rewrite IH.
Qed.

(** X14.  The references that [csv_url_of] accepts, and what it reads in
    them: such a reference holds the marker "/d/"; the identifier put into
    the endpoint is the text that follows the first marker up to the next
    slash or the end, and it never holds a slash (it may be empty). *)
Theorem source_reference_identifier (sheet_url csv_url : string) :
  csv_url_of sheet_url = Ok csv_url ->
  exists pre ident rest,
    sheet_url = pre +:+ "/d/" +:+ ident +:+ rest /\
    Py.find "/d/" sheet_url = Some (String.length pre) /\
    Py.contains "/" ident = false /\
    (rest = "" \/ Py.startswith "/" rest = true) /\
    csv_url =
      "https://docs.google.com/spreadsheets/d/" +:+ ident +:+ "/export?format=csv".
Proof.
  unfold csv_url_of.
  destruct (sheet_id_of sheet_url) as [ident|e] eqn:Hid; [simpl|done].
  intros [= <-].
  destruct (Py.find "/d/" sheet_url) as [n|] eqn:Hfind.
  - destruct (find_Some _ _ _ Hfind) as (pre & tail & -> & <-).
    unfold sheet_id_of, Py.split in Hid.
    rewrite (split_go_find "/" "d/" pre tail Hfind) in Hid.
    destruct (split_go_rest "/" "d/" tail) as (q & Htail & Hq).
    destruct (Py.split_go "/d/" 0 tail) as [after_marker others].
    simpl in Hid, Htail.
    destruct (split_go_rest "/" "" after_marker) as (r & Hafter & Hr).
    pose proof (split_go_piece_clear "/" after_marker) as Hclear.
    destruct (Py.split_go "/" 0 after_marker) as [piece o].
    simpl in Hid, Hafter, Hclear. injection Hid as ->.
    exists pre, ident, (r +:+ q). split_and!.
    + by rewrite Htail, Hafter at 1; rewrite append_assoc.
    + done.
    + rewrite contains_find, Hclear. apply bool_decide_eq_false_2.
      by intros [? ?].
    + destruct Hr as [->|Hr].
      * rewrite append_nil_l. destruct Hq as [->|Hq]; [by left|right].
        apply startswith_spec in Hq as [q' ->]. reflexivity.
      * right. apply startswith_spec in Hr as [r' ->]. reflexivity.
    + done.
  - unfold sheet_id_of, Py.split in Hid.
    by rewrite (split_go_absent _ _ Hfind) in Hid.
Qed.

(** X14 on the reference of ["ada"]. *)
Lemma source_reference_identifier_witness :
  exists pre ident rest,
    example_reference = pre +:+ "/d/" +:+ ident +:+ rest /\
    Py.contains "/" ident = false.
Proof.
  destruct (source_reference_identifier example_reference
              "https://docs.google.com/spreadsheets/d/abc123/export?format=csv"
              eq_refl) as (pre & ident & rest & Hsplit & _ & Hclear & _).
  by exists pre, ident, rest.
Defined.

(** ** Roles and categories *)

Lemma names_of_disjoint r1 r2 c :
  c ∈ names_of r1 -> c ∈ names_of r2 -> r1 = r2.
Proof.
  destruct r1, r2; try done;
    unfold names_of, STATUS_NAMES, DATE_NAMES, COMPANY_NAMES;
    rewrite !elem_of_cons, !elem_of_nil; intros H1 H2; exfalso;
    repeat (destruct H1 as [->|H1]; [clear -H2; intuition discriminate|]);
    done.
Qed.

(** X15.  No header is bound to two roles: the synonym lists of the
    roles have no name in common. *)
Theorem roles_bind_distinct_headers (r1 r2 : role) (headers : list string)
    (cells : list (list cell)) (c : string) :
  r1 <> r2 ->
  resolve r1 (fetched headers cells) = Some c ->
  resolve r2 (fetched headers cells) <> Some c.
Proof.
  intros Hne [_ H1]%resolve_in [_ H2]%resolve_in.
  by apply Hne, (names_of_disjoint r1 r2 c).
Qed.

(** X15 on the example: the header bound to the status role is not bound
    to the date role. *)
Lemma roles_bind_distinct_headers_witness :
  resolve DateRole (fetched example_headers example_rows) <> Some "status".
Proof.
  apply (roles_bind_distinct_headers StatusRole DateRole example_headers
           example_rows "status"); [discriminate|reflexivity].
Defined.




(** ** The properties of a built dashboard on sample sheets *)

Lemma links_sheet_built :
  exists content,
    dashboard_of (pandas := reference_pandas)
      (sample_world example_reference (Ok links_sheet))
      (fetched (columns links_sheet) (rows links_sheet))
      (column_map_of (normalize_columns (columns links_sheet))) =
    Ok (Dashboard content).
Proof. eexists. vm_compute. reflexivity. Defined.

Lemma example_sheet_built :
  exists content,
    dashboard_of (pandas := reference_pandas) sheet_served
      (fetched (columns example_sheet) (rows example_sheet))
      (column_map_of (normalize_columns (columns example_sheet))) =
    Ok (Dashboard content).
Proof. eexists. vm_compute. reflexivity. Defined.


(** X2 on the same sheet. *)
Lemma dashboard_counters_bounded_witness :
  exists content,
    dashboard_of (pandas := reference_pandas) sheet_served
      (fetched (columns example_sheet) (rows example_sheet))
      (column_map_of (normalize_columns (columns example_sheet))) =
    Ok (Dashboard content) /\
    interviews content <= total_applications content.
Proof.
  destruct example_sheet_built as [content Hbuilt].
  destruct (dashboard_counters_bounded (pandas := reference_pandas) _ _ _ _ Hbuilt)
    as (Hinterviews & _).
  exists content. split; [exact Hbuilt|exact Hinterviews].
Defined.

(** X3 on a sheet with a "Job Link" and a "Resume" column: both are
    rewritten, the company column is not. *)
Lemma table_passthrough_witness :
  exists content table,
    dashboard_of (pandas := reference_pandas)
      (sample_world example_reference (Ok links_sheet))
      (fetched (columns links_sheet) (rows links_sheet))
      (column_map_of (normalize_columns (columns links_sheet))) =
    Ok (Dashboard content) /\
    table_data content = to_dict_records table /\
    getitem table "resume" = Ok [Str "[link](cv.pdf)"; Str ""] /\
    getitem table "company" = Ok [Str "Acme"; Str "Beta"].
Proof.
  destruct links_sheet_built as [content Hbuilt].
  destruct (table_passthrough (pandas := reference_pandas)
              (sample_world example_reference (Ok links_sheet))
              (fetched (columns links_sheet) (rows links_sheet))
              (column_map_of (normalize_columns (columns links_sheet))) content)
    as (table & Htable & _ & Hcells); [|exact Hbuilt|].
  - vm_compute. repeat constructor; rewrite ?elem_of_cons, ?elem_of_nil;
      intuition discriminate.
  - exists content, table. split_and!; [done|done|..].
    + by rewrite (Hcells "resume" [Str "cv.pdf"; Str "  "] eq_refl).
    + by rewrite (Hcells "company" [Str "Acme"; Str "Beta"] eq_refl).
Defined.

(** X7 on the sheet of ["ada"]: the filter offers the statuses of the
    sheet. *)
Lemma status_views_agree_witness :
  exists content,
    dashboard_of (pandas := reference_pandas) sheet_served
      (fetched (columns example_sheet) (rows example_sheet))
      (column_map_of (normalize_columns (columns example_sheet))) =
    Ok (Dashboard content) /\
    NoDup (status_options content).
Proof.
  destruct example_sheet_built as [content Hbuilt].
  destruct (status_views_agree (pandas := reference_pandas) _ _ _ _ Hbuilt)
    as (Hnodup & _).
  exists content. split; [exact Hbuilt|exact Hnodup].
Defined.

(** ** From the sheet to the dashboard *)

Lemma role_names_not_link_like r c : c ∈ names_of r -> link_like c = false.
Proof.
  destruct r; unfold names_of, STATUS_NAMES, DATE_NAMES, COMPANY_NAMES;
    rewrite !elem_of_cons, elem_of_nil; intros H;
    repeat (destruct H as [->|H]; [reflexivity|]); done.
Qed.

Section FromSheet.
Context {pandas : Pandas}.

(** On a fetched sheet, the column bound to the status or to the company
    role reaches the counters and the charts as it was fetched: the
    rewriting of the link columns and the parsing of the dates leave it
    alone. *)
Lemma bound_column_kept headers cells r c links :
  let df := fetched headers cells in
  let cm := column_map_of (columns df) in
  r <> DateRole ->
  resolve r df = Some c ->
  reformat_links (columns df) df = Ok links ->
  getitem (snd (get_recent_activity links cm)) c = getitem df c.
Proof.
  intros df cm Hrole Hresolve Hlinks.
  destruct (resolve_in _ _ _ _ Hresolve) as [_ Hname].
  destruct (reformat_links_shape (columns df) df)
    as (links' & Hlinks' & _ & _ & Hsame); [done|].
  rewrite Hlinks in Hlinks'. injection Hlinks' as <-.
  rewrite <- (Hsame c) by (by eapply role_names_not_link_like).
  destruct (truthy (get_column_if_exists links DATE_NAMES (Some cm)))
    as [date_col|] eqn:Hdate;
    [|unfold get_recent_activity; by rewrite Hdate].
  destruct (getitem links date_col) as [dates|e] eqn:Hdates;
    [|unfold get_recent_activity; by rewrite Hdate, Hdates].
  apply (recent_activity_columns links cm date_col dates Hdate Hdates).
  intros ->. apply Hrole.
  assert (resolve DateRole df = Some date_col) as Hbound.
  { change (resolve DateRole df)
      with (get_column_if_exists links DATE_NAMES (Some cm)).
    destruct (get_column_if_exists links DATE_NAMES (Some cm)) as [[|a s]|];
      simpl in Hdate; congruence. }
  apply resolve_in in Hbound as [_ Hdate_name].
  by apply (names_of_disjoint r DateRole date_col).
Qed.

(** X17.  The headline counters of a dashboard are those of the sheet as
    it was fetched: with a status column that holds text, Interviews and
    Approved count the rows whose status mentions the words of their
    pattern, the success rate is computed from the rows that mention a
    success word and from the number of rows, the status filter lists the
    distinct statuses and the rows are highlighted by that column. *)
Theorem dashboard_counters_of_sheet (w : World) (headers : list string)
    (cells : list (list cell)) (c : string) (series : list cell)
    (content : Content) :
  let df := fetched headers cells in
  resolve StatusRole df = Some c ->
  getitem df c = Ok series ->
  holds_text series = true ->
  dashboard_of w df (column_map_of (columns df)) = Ok (Dashboard content) ->
  interviews content = matching ["interview"] series /\
  approved content = matching ["approved"; "offer"; "accepted"] series /\
  success_rate content =
    (if decide (len df = 0) then "0%"
     else percent_label (matching SUCCESS_WORDS series) (len df)) /\
  status_options content = unique (dropna series) /\
  highlight_column content = Some c.
Proof.
  intros df. set (cm := column_map_of (columns df)).
  intros Hresolve Hget Htext
    (links & rate & a & i & pie & bars & options & parsed & Hparsed & Hlinks
     & Hrate & Ha & Hi & _ & _ & Hoptions & [= ->])%dashboard_of_Ok.
  pose proof (resolve_status_truthy _ _ _ Hresolve) as Hc.
  change (truthy (get_column_if_exists parsed STATUS_NAMES (Some cm)) = Some c)
    in Hc.
  pose proof (bound_column_kept headers cells StatusRole c links
                ltac:(discriminate) Hresolve Hlinks) as Hkept.
  fold df cm in Hkept. rewrite <- Hparsed, Hget in Hkept.
  destruct (reformat_links_shape (columns df) df)
    as (links' & Hlinks' & _ & Hlen & Hsame); [done|].
  rewrite Hlinks in Hlinks'. injection Hlinks' as <-.
  destruct (resolve_in _ _ _ _ Hresolve) as [_ Hname].
  assert (getitem links c = Ok series) as Hget'.
  { rewrite Hsame; [done|]. by eapply role_names_not_link_like. }
  rewrite (count_status_text parsed _ cm c series Hc Hkept Htext) in Ha.
  rewrite (count_status_text parsed _ cm c series Hc Hkept Htext) in Hi.
  injection Ha as <-. injection Hi as <-.
  rewrite Hc, Hkept in Hoptions. simpl in Hoptions. injection Hoptions as <-.
  cbn [interviews approved success_rate status_options highlight_column].
  rewrite Hc. split_and!; try done.
  rewrite <- Hlen. destruct (decide (len links = 0)) as [Hzero|Hsome].
  - unfold calculate_success_rate in Hrate.
    change (truthy (get_column_if_exists links STATUS_NAMES (Some cm)) = Some c)
      in Hc.
    rewrite Hc, decide_True in Hrate by done. by injection Hrate as <-.
  - rewrite (success_rate_text links cm c series) in Hrate by done.
    by injection Hrate as <-.
Qed.

(** X18.  The status pie and the company chart of a dashboard are the
    ones that [create_status_pie] and [create_company_distribution] draw
    from the sheet as it was fetched. *)
Theorem dashboard_charts_of_sheet (w : World) (headers : list string)
    (cells : list (list cell)) (content : Content) :
  let df := fetched headers cells in
  let cm := column_map_of (columns df) in
  dashboard_of w df cm = Ok (Dashboard content) ->
  create_status_pie df cm = Ok (status_pie content) /\
  create_company_distribution df cm = Ok (company_chart content).
Proof.
  intros df cm
    (links & rate & a & i & pie & bars & options & parsed & Hparsed & Hlinks
     & _ & _ & _ & Hpie & Hbars & _ & [= ->])%dashboard_of_Ok.
  simpl. split.
  - rewrite <- Hpie. unfold create_status_pie.
    change (get_column_if_exists parsed STATUS_NAMES (Some cm))
      with (get_column_if_exists df STATUS_NAMES (Some cm)).
    destruct (truthy (get_column_if_exists df STATUS_NAMES (Some cm)))
      as [c|] eqn:Hc; [|done].
    assert (resolve StatusRole df = Some c) as Hresolve.
    { change (resolve StatusRole df)
        with (get_column_if_exists df STATUS_NAMES (Some cm)).
      destruct (get_column_if_exists df STATUS_NAMES (Some cm)) as [[|x s]|];
        simpl in Hc; congruence. }
    pose proof (bound_column_kept headers cells StatusRole c links
                  ltac:(discriminate) Hresolve Hlinks) as Hkept.
    fold df cm in Hkept. by rewrite Hparsed, Hkept.
  - rewrite <- Hbars. unfold create_company_distribution.
    change (get_column_if_exists parsed COMPANY_NAMES (Some cm))
      with (get_column_if_exists df COMPANY_NAMES (Some cm)).
    destruct (truthy (get_column_if_exists df COMPANY_NAMES (Some cm)))
      as [c|] eqn:Hc; [|done].
    assert (resolve CompanyRole df = Some c) as Hresolve.
    { change (resolve CompanyRole df)
        with (get_column_if_exists df COMPANY_NAMES (Some cm)).
      destruct (get_column_if_exists df COMPANY_NAMES (Some cm)) as [[|x s]|];
        simpl in Hc; congruence. }
    pose proof (bound_column_kept headers cells CompanyRole c links
                  ltac:(discriminate) Hresolve Hlinks) as Hkept.
    fold df cm in Hkept. by rewrite Hparsed, Hkept.
Qed.

End FromSheet.

(** X17 on the example of the specification: one approved application
    out of two. *)
Lemma dashboard_counters_of_sheet_witness :
  exists content,
    dashboard_of (pandas := reference_pandas) sheet_served
      (fetched (columns example_sheet) (rows example_sheet))
      (column_map_of (normalize_columns (columns example_sheet))) =
    Ok (Dashboard content) /\
    interviews content = 0 /\ approved content = 1 /\
    success_rate content = "50%".
Proof.
  destruct example_sheet_built as [content Hbuilt].
  destruct (dashboard_counters_of_sheet (pandas := reference_pandas) sheet_served
              (columns example_sheet) (rows example_sheet) "status"
              [Str "Approved"; Str "Applied"] content eq_refl eq_refl eq_refl
              Hbuilt)
    as (Hinterviews & Happroved & Hrate & _).
  exists content. split; [exact Hbuilt|].
  split; [exact Hinterviews|]. split; [exact Happroved|].
  rewrite Hrate. vm_compute. reflexivity.
Defined.

(** X18 on the same sheet. *)
Lemma dashboard_charts_of_sheet_witness :
  exists content,
    dashboard_of (pandas := reference_pandas) sheet_served
      (fetched (columns example_sheet) (rows example_sheet))
      (column_map_of (normalize_columns (columns example_sheet))) =
    Ok (Dashboard content) /\
    company_chart content = BarFigure [(Str "Acme", 1); (Str "Beta", 1)].
Proof.
  destruct example_sheet_built as [content Hbuilt].
  destruct (dashboard_charts_of_sheet (pandas := reference_pandas) sheet_served
              (columns example_sheet) (rows example_sheet) content Hbuilt)
    as (_ & Hbars).
  exists content. split; [exact Hbuilt|].
  assert (Ok (company_chart content) =
          Ok (BarFigure [(Str "Acme", 1); (Str "Beta", 1)])) as Hchart.
  { rewrite <- Hbars. reflexivity. }
  by injection Hchart.
Defined.

(** X13 for the reference of ["ada"]. *)
Lemma app_link_routes_witness :
  AppPages.display_page (pandas := reference_pandas) sheet_served
    (Some ("/" +:+ example_reference)) =
  DashboardLayout
    (AppPages.dashboard_layout (pandas := reference_pandas) sheet_served
       example_reference).
Proof.
  apply (app_link_routes (pandas := reference_pandas) sheet_served sheet_served 1
           "ada" example_reference
           [("company", "company"); ("status", "status"); ("date", "date")]
           example_reference
           {| columns := ["company"; "status"; "date"];
              rows := rows example_sheet |}
           ("/" +:+ example_reference)).
  reflexivity.
Defined.
